(** * Clickfit storefront: session cart, checkout and newsletter views

    A shallow embedding of [store/views.py] and of the parts of
    [store/models.py] the views rely on.

    Conventions of the embedding
    - A Django view is a function from the stored session, the database and
      the request to an [outcome]: the session as the session middleware
      stores it after the response, the database, the response, the flash
      messages, the log lines and the mails handed to [send_mail].
    - An uncaught exception is the response [ServerError e].  The session
      middleware does not save the session of a 5xx response, and a view
      that never sets [session.modified] leaves the stored session as it
      was, so both return the session they were given.  Database rows saved
      before the exception stay saved: no view opens a transaction.
    - [DecimalField(decimal_places=2)] values are counted in hundredths
      ([decimal]); [str(product.price)], the text kept in a cart line, is
      represented by the decimal it prints.
    - A float assigned to a [DecimalField] is converted when the row is
      saved, and the number kept is converted again when the row is read,
      as Django does it on SQLite ([to_column], [from_column]): the order
      object the view holds and the order row of the table differ in
      their decimal columns.
    - Python's [float] arithmetic, [str] on integers, the integer
      coercion of a primary key and the conversions between a float and a
      [DecimalField] column are kept abstract ([PyOps]). *)

From Stdlib Require Import ZArith String DecimalString.
From stdpp Require Import base option list gmap strings pretty.

Local Open Scope Z_scope.

(** ** Python built-ins used by the views *)

Class PyOps := {
  (** Python's [float] *)
  float : Type;
  (** the integer [0] a running total starts from *)
  float_zero : float;
  (** [x + y] *)
  float_add : float -> float -> float;
  (** [x - y] *)
  float_sub : float -> float -> float;
  (** [x * n] for a float [x] and an int [n] *)
  float_mul_int : float -> Z -> float;
  (** [float(s)] for the text [s] of a two-place decimal *)
  float_of_decimal_str : Z -> float;
  (** [str(n)] for an int [n] *)
  str_of_int : Z -> string;
  (** the integer a string primary key is coerced to by the ORM
      ([int(s)]); [None] when the coercion raises [ValueError] *)
  int_of_str : string -> option Z;
  (** the number a [DecimalField(max_digits=m)] column keeps of the float
      [x] assigned to it: [DecimalField.to_python] makes
      [Context(prec=m).create_decimal_from_float(x)] of it, the float
      rounded to [m] significant digits *)
  to_column : Z -> float -> float;
  (** the [Decimal] of two places read back from a number kept in a
      [DecimalField(max_digits=m, decimal_places=2)] column, in hundredths:
      the number quantized to two places in a context of [m] digits;
      [None] when that raises [decimal.InvalidOperation], the result
      needing more than [m] digits *)
  from_column : Z -> float -> option Z
}.

(** A two-place decimal, in hundredths. *)
Definition decimal := Z.

(** The value under the key ['id'] of a cart line or of a request: a JSON
    integer or a JSON string. *)
Inductive pyid :=
| IdInt (n : Z)
| IdStr (s : string).

(** The result of [int(v)] for a JSON value [v]. *)
Inductive pyint :=
| IntOk (n : Z)
| IntRaises.

(** Exceptions the views meet. *)
Inductive exn :=
| ValueError
| DoesNotExist
| Http404
| IntegrityError
| MultipleObjectsReturned
(** [decimal.InvalidOperation] *)
| InvalidOperation.

(** ** models.py *)

(** [Product]: the columns the views read, the primary key apart (it is the
    key of the table). *)
Record product := {
  p_name : string;
  p_price : decimal;
  p_stock : option Z;
  p_is_active : bool;
  (** [product.image.url if product.image else ''] *)
  p_image_url : string
}.

Definition set_stock (st : option Z) (p : product) : product :=
  {| p_name := p_name p; p_price := p_price p; p_stock := st;
     p_is_active := p_is_active p; p_image_url := p_image_url p |}.

(** An integer column declaration: [null] and the lower bound the column
    type enforces. *)
Record int_field := {
  f_null : bool;
  f_default : option Z;
  f_min : option Z
}.

(** [stock = models.PositiveIntegerField(default=0)]: not nullable, and the
    column carries the check [stock >= 0]. *)
Definition Product_stock : int_field :=
  {| f_null := false; f_default := Some 0; f_min := Some 0 |}.

(** Whether a column accepts a value. *)
Definition field_accepts (f : int_field) (v : option Z) : bool :=
  match v with
  | None => f_null f
  | Some n => match f_min f with Some lo => lo <=? n | None => true end
  end.

(** A cart line: the dict kept in [session['cart']]. *)
Record item := {
  i_id : pyid;
  i_name : string;
  i_price : decimal;
  i_image : string;
  i_quantity : Z;
  (** the key ['current_stock'], written by the cart view only *)
  i_current_stock : option (option Z)
}.

Definition set_quantity (q : Z) (it : item) : item :=
  {| i_id := i_id it; i_name := i_name it; i_price := i_price it;
     i_image := i_image it; i_quantity := q;
     i_current_stock := i_current_stock it |}.

Definition set_price (pr : decimal) (it : item) : item :=
  {| i_id := i_id it; i_name := i_name it; i_price := pr;
     i_image := i_image it; i_quantity := i_quantity it;
     i_current_stock := i_current_stock it |}.

Definition set_current_stock (st : option Z) (it : item) : item :=
  {| i_id := i_id it; i_name := i_name it; i_price := i_price it;
     i_image := i_image it; i_quantity := i_quantity it;
     i_current_stock := Some st |}.

(** [Subscriber]: [email] is unique. *)
Record subscriber := {
  sub_email : string;
  sub_is_active : bool
}.

(** The cleaned fields of a valid [OrderForm]. *)
Record order_form := {
  of_name : string;
  of_email : string;
  of_phone : string;
  of_address : string;
  of_payment_method : string
}.

(** The stored session. *)
Record session := {
  cart : option (list item);
  cart_count : option Z;
  last_order_id : option Z
}.

Definition empty_session : session :=
  {| cart := None; cart_count := None; last_order_id := None |}.

(** [request.session.get('cart', [])] *)
Definition get_cart (s : session) : list item := default [] (cart s).

(** [request.session.get('cart_count', 0)], what [get_cart_count] reports *)
Definition get_cart_count (s : session) : Z := default 0 (cart_count s).

(** [sum(item['quantity'] for item in cart)] *)
Definition sum_quantities (l : list item) : Z :=
  foldr (fun it acc => i_quantity it + acc) 0 l.

(** Flash messages, by the text they format. *)
Inductive notice :=
(** "Quantity adjusted for {product.name} due to limited stock" *)
| QuantityAdjusted (name : string)
(** "{item['name']} is no longer available and was removed from your cart" *)
| RemovedUnavailable (name : string)
(** "Your cart is empty. Please add some products before checkout." *)
| CartIsEmpty
(** "Only {product.stock} items available for {product.name}" *)
| OnlyAvailable (stock : Z) (name : string)
(** "{item['name']} is no longer available" *)
| NoLongerAvailable (name : string)
(** "Please correct the errors in the form." *)
| FormErrors.

Inductive message :=
| MsgWarning (n : notice)
| MsgError (n : notice).

(** The ['error'] text of a JSON rejection. *)
Inductive json_error :=
| ProductIdRequired
(** "Only {product.stock} items available in stock" *)
| OnlyInStock (stock : Z)
(** "Only {product.stock} items available for {product.name}" *)
| OnlyAvailableFor (stock : Z) (name : string)
| InvalidJSON
| EmailRequired
(** [str(e)] of a caught exception *)
| ExceptionText (e : exn).

(** ** Looking a product up *)

Definition py_str `{PyOps} (v : pyid) : string :=
  match v with
  | IdInt n => str_of_int n
  | IdStr s => s
  end.

(** The primary key a lookup value is coerced to. *)
Definition to_pk `{PyOps} (v : pyid) : option Z :=
  match v with
  | IdInt n => Some n
  | IdStr s => int_of_str s
  end.

(** [not v] for an id *)
Definition id_falsy (v : pyid) : bool :=
  match v with
  | IdInt n => n =? 0
  | IdStr s => bool_decide (s = EmptyString)
  end.

Inductive lookup :=
| Found (pk : Z) (p : product)
| Missing
| Invalid.

(** [Product.objects.get(id=v)] and, with [active_only],
    [Product.objects.get(id=v, is_active=True)]: [Missing] stands for
    [Product.DoesNotExist], [Invalid] for the [ValueError] of a value that
    is no integer. *)
Definition get_product `{PyOps} (ps : gmap Z product) (v : pyid)
    (active_only : bool) : lookup :=
  match to_pk v with
  | None => Invalid
  | Some pk =>
      match ps !! pk with
      | None => Missing
      | Some p =>
          if active_only && negb (p_is_active p) then Missing else Found pk p
      end
  end.

(** [product.stock is not None and q > product.stock] *)
Definition over_stock (p : product) (q : Z) : bool :=
  match p_stock p with
  | Some st => st <? q
  | None => false
  end.

Section Views.
Context `{PyOps}.

(** ** Orders, the database and what a view returns *)

(** [Order]: the attributes [checkout] and [Order.save] set, and the
    primary key the insert assigns.  [o_items] is the text [json.dumps]
    made of the validated cart, represented by the lines it encodes.  The
    record serves for the object the view holds and for the row of the
    table; the two differ in the decimal columns ([order_row]). *)
Record order := {
  o_id : Z;
  o_name : string;
  o_email : string;
  o_phone : string;
  o_address : string;
  o_payment_method : string;
  o_status : string;
  o_items : list item;
  o_total : float;
  o_shipping_cost : float;
  o_tax_amount : float;
  o_discount_amount : float;
  o_final_total : float
}.

Record db := {
  products : gmap Z product;
  orders : list order;
  subscribers : list subscriber
}.

Definition set_products (ps : gmap Z product) (d : db) : db :=
  {| products := ps; orders := orders d; subscribers := subscribers d |}.

Definition set_orders (os : list order) (d : db) : db :=
  {| products := products d; orders := os; subscribers := subscribers d |}.

Definition set_subscribers (ss : list subscriber) (d : db) : db :=
  {| products := products d; orders := orders d; subscribers := ss |}.

(** The mails handed to [send_mail], by what they are about. *)
Inductive mail :=
(** "New Order #{order.id}", to the shop's own address *)
| AdminOrderMail (o : order)
(** "Order Confirmation #{order.id}", to [order.email] *)
| CustomerOrderMail (o : order)
(** "New Newsletter Subscriber" *)
| NewSubscriberMail (email : string).

(** [logger.error] lines. *)
Inductive log_line :=
| EmailSendingFailed
| CustomerEmailFailed
| SubscriptionEmailFailed
| JsonDecodeError
| UnexpectedError (e : exn).

Inductive response :=
(** [render(request, 'store/cart.html', ...)] *)
| RenderCart (cart_items : list item) (total : float)
(** [render(request, 'store/checkout.html', ...)] *)
| RenderCheckout (cart_items : list item) (total : float)
(** [redirect(name)] *)
| Redirect (name : string)
(** [JsonResponse({'success': True, 'cart_count': n, ...})] *)
| JsonCart (n : Z)
(** [JsonResponse({'success': True})] *)
| JsonSuccess
(** [JsonResponse({'success': False, 'error': ...})] *)
| JsonFailure (e : json_error)
(** [JsonResponse({'cart_count': n})] *)
| JsonCount (n : Z)
(** an uncaught exception *)
| ServerError (e : exn).

Record outcome := {
  out_session : session;
  out_db : db;
  out_response : response;
  out_messages : list message;
  out_log : list log_line;
  out_mails : list mail
}.

(** A response that leaves the session and the database as they were. *)
Definition respond (s : session) (d : db) (r : response)
    (ms : list message) (lg : list log_line) : outcome :=
  {| out_session := s; out_db := d; out_response := r; out_messages := ms;
     out_log := lg; out_mails := [] |}.

(** [float(item['price']) * item['quantity']] *)
Definition line_subtotal (it : item) : float :=
  float_mul_int (float_of_decimal_str (i_price it)) (i_quantity it).

(** The sum of the lines' subtotals, added up from [0] in cart order. *)
Definition cart_total (l : list item) : float :=
  foldl (fun t it => float_add t (line_subtotal it)) float_zero l.

(** ** cart *)

(** What one pass of the loop of [cart] does to a line whose product was
    found: clamp, refresh the price, record the stock. *)
Definition cart_line (p : product) (it : item) : item :=
  let it1 := if over_stock p (i_quantity it)
             then set_quantity (default 0 (p_stock p)) it else it in
  set_current_stock (p_stock p) (set_price (p_price p) it1).

(** The loop of [cart], with its three accumulators.  [None]: the lookup
    raised [ValueError], which the [except Product.DoesNotExist] clause
    does not catch. *)
Fixpoint cart_loop (ps : gmap Z product) (cart_items validated : list item)
    (total : float) (ms : list message)
    : option (list item * float * list message) :=
  match cart_items with
  | [] => Some (validated, total, ms)
  | it :: rest =>
      match get_product ps (i_id it) true with
      | Found _ p =>
          let ms1 := if over_stock p (i_quantity it)
                     then ms ++ [MsgWarning (QuantityAdjusted (p_name p))]
                     else ms in
          let it1 := cart_line p it in
          cart_loop ps rest (validated ++ [it1])
            (float_add total (line_subtotal it1)) ms1
      | Missing =>
          cart_loop ps rest validated total
            (ms ++ [MsgWarning (RemovedUnavailable (i_name it))])
      | Invalid => None
      end
  end.

Definition cart_view (s : session) (d : db) : outcome :=
  match cart_loop (products d) (get_cart s) [] float_zero [] with
  | None => respond s d (ServerError ValueError) [] []
  | Some (validated_cart, total, ms) =>
      respond
        {| cart := Some validated_cart;
           cart_count := Some (sum_quantities validated_cart);
           last_order_id := last_order_id s |}
        d (RenderCart validated_cart total) ms []
  end.

(** ** checkout *)

Inductive checkout_request :=
| GET
(** [POST] with the cleaned data of the form when [form.is_valid()] *)
| POST (form : option order_form).

Inductive checkout_scan :=
| ScanDone (validated : list item) (total : float)
(** [messages.error(...)] and [return redirect('cart')] *)
| ScanReject (m : message)
| ScanRaise (e : exn).

(** The revalidation loop of [checkout]. *)
Fixpoint checkout_loop (ps : gmap Z product) (cart_items validated : list item)
    (total : float) : checkout_scan :=
  match cart_items with
  | [] => ScanDone validated total
  | it :: rest =>
      match get_product ps (i_id it) true with
      | Found _ p =>
          if over_stock p (i_quantity it)
          then ScanReject
                 (MsgError (OnlyAvailable (default 0 (p_stock p)) (p_name p)))
          else
            let it1 := set_price (p_price p) it in
            checkout_loop ps rest (validated ++ [it1])
              (float_add total (line_subtotal it1))
      | Missing => ScanReject (MsgError (NoLongerAvailable (i_name it)))
      | Invalid => ScanRaise ValueError
      end
  end.

(** [Product.save()] of the row [pk]: the column constraints of [stock]
    refuse the row with [IntegrityError]. *)
Definition save_product (ps : gmap Z product) (pk : Z) (p : product)
    : exn + gmap Z product :=
  if field_accepts Product_stock (p_stock p)
  then inr (<[pk := p]> ps)
  else inl IntegrityError.

(** The stock loop of [checkout].  A raised exception leaves the rows
    saved so far as they are. *)
Fixpoint commit_stock (ps : gmap Z product) (validated : list item)
    : gmap Z product * option exn :=
  match validated with
  | [] => (ps, None)
  | it :: rest =>
      match get_product ps (i_id it) false with
      | Found pk p =>
          match p_stock p with
          | None => commit_stock ps rest
          | Some st =>
              match save_product ps pk
                      (set_stock (Some (st - i_quantity it)) p) with
              | inr ps1 => commit_stock ps1 rest
              | inl e => (ps, Some e)
              end
          end
      | Missing => (ps, Some DoesNotExist)
      | Invalid => (ps, Some ValueError)
      end
  end.

(** The primary key an insert into [orders] assigns. *)
Definition next_order_id (os : list order) : Z :=
  1 + foldr (fun o acc => Z.max (o_id o) acc) 0 os.

(** The order object after [form.save(commit=False)], the three
    assignments of [checkout] and [Order.save], which computes
    [final_total] from the field defaults [0.00] and gets the primary
    key: [total] and [final_total] stay the floats they were assigned. *)
Definition new_order (oid : Z) (f : order_form) (validated : list item)
    (total : float) : order :=
  {| o_id := oid; o_name := of_name f; o_email := of_email f;
     o_phone := of_phone f; o_address := of_address f;
     o_payment_method := of_payment_method f; o_status := "pending";
     o_items := validated; o_total := total;
     o_shipping_cost := float_zero; o_tax_amount := float_zero;
     o_discount_amount := float_zero;
     o_final_total :=
       float_sub (float_add (float_add total float_zero) float_zero)
         float_zero |}.

(** The row [Order.save] inserts for an order object:
    [total = DecimalField(max_digits=10, decimal_places=2)] and
    [final_total] likewise, [shipping_cost], [tax_amount] and
    [discount_amount] with [max_digits=6]; each column keeps what
    [to_column] makes of the float. *)
Definition order_row (o : order) : order :=
  {| o_id := o_id o; o_name := o_name o; o_email := o_email o;
     o_phone := o_phone o; o_address := o_address o;
     o_payment_method := o_payment_method o; o_status := o_status o;
     o_items := o_items o;
     o_total := to_column 10 (o_total o);
     o_shipping_cost := to_column 6 (o_shipping_cost o);
     o_tax_amount := to_column 6 (o_tax_amount o);
     o_discount_amount := to_column 6 (o_discount_amount o);
     o_final_total := to_column 10 (o_final_total o) |}.

(** [try: send_mail(...) except Exception as e: logger.error(...)] *)
Definition try_send (send_mail : mail -> bool) (m : mail) (l : log_line)
    : list log_line :=
  if send_mail m then [] else [l].

Definition checkout (send_mail : mail -> bool) (req : checkout_request)
    (s : session) (d : db) : outcome :=
  match get_cart s with
  | [] => respond s d (Redirect "cart") [MsgError CartIsEmpty] []
  | cart_items =>
      match checkout_loop (products d) cart_items [] float_zero with
      | ScanRaise e => respond s d (ServerError e) [] []
      | ScanReject m => respond s d (Redirect "cart") [m] []
      | ScanDone validated_cart total =>
          let s1 := {| cart := Some validated_cart;
                       cart_count := cart_count s;
                       last_order_id := last_order_id s |} in
          match req with
          | GET => respond s1 d (RenderCheckout validated_cart total) [] []
          | POST None =>
              respond s1 d (RenderCheckout validated_cart total)
                [MsgError FormErrors] []
          | POST (Some f) =>
              let o := new_order (next_order_id (orders d)) f
                         validated_cart total in
              let d1 := set_orders (orders d ++ [order_row o]) d in
              match commit_stock (products d1) validated_cart with
              | (ps, Some e) =>
                  respond s (set_products ps d1) (ServerError e) [] []
              | (ps, None) =>
                  {| out_session :=
                       {| cart := Some []; cart_count := Some 0;
                          last_order_id := Some (o_id o) |};
                     out_db := set_products ps d1;
                     out_response := Redirect "success";
                     out_messages := [];
                     out_log :=
                       try_send send_mail (AdminOrderMail o)
                         EmailSendingFailed ++
                       try_send send_mail (CustomerOrderMail o)
                         CustomerEmailFailed;
                     out_mails := [AdminOrderMail o; CustomerOrderMail o] |}
              end
          end
      end
  end.

(** ** add_to_cart *)

(** The parsed body of a request to [add_to_cart]: [data.get('product_id')]
    ([None] when the key is absent or null) and [int(...)] of the value
    under ['quantity'] ([None] when the key is absent). *)
Record add_data := {
  ad_product_id : option pyid;
  ad_quantity : option pyint
}.

Inductive add_scan :=
(** the loop ended without finding the product *)
| NotInCart
(** the matching line got the new quantity; the loop broke *)
| Merged (cart1 : list item)
(** the new quantity exceeds the stock *)
| OverStock.

(** The search of [add_to_cart] for a line of the product. *)
Fixpoint add_loop (p : product) (product_id : pyid) (quantity : Z)
    (cart0 : list item) : add_scan :=
  match cart0 with
  | [] => NotInCart
  | it :: rest =>
      if bool_decide (py_str (i_id it) = py_str product_id) then
        let new_quantity := i_quantity it + quantity in
        if over_stock p new_quantity then OverStock
        else Merged (set_quantity new_quantity it :: rest)
      else
        match add_loop p product_id quantity rest with
        | Merged rest1 => Merged (it :: rest1)
        | r => r
        end
  end.

(** The line [add_to_cart] appends for a product not yet in the cart. *)
Definition new_line (pk : Z) (p : product) (quantity : Z) : item :=
  {| i_id := IdInt pk; i_name := p_name p; i_price := p_price p;
     i_image := p_image_url p; i_quantity := quantity;
     i_current_stock := None |}.

(** What the [except Exception] clause of the JSON views answers. *)
Definition caught (s : session) (d : db) (e : exn) : outcome :=
  respond s d (JsonFailure (ExceptionText e)) [] [UnexpectedError e].

(** The session after a JSON view stored [cart1]. *)
Definition store_cart (s : session) (cart1 : list item) : session :=
  {| cart := Some cart1; cart_count := Some (sum_quantities cart1);
     last_order_id := last_order_id s |}.

Definition add_to_cart (body : option add_data) (s : session) (d : db)
    : outcome :=
  match body with
  | None => respond s d (JsonFailure InvalidJSON) [] [JsonDecodeError]
  | Some data =>
      match default (IntOk 1) (ad_quantity data) with
      | IntRaises => caught s d ValueError
      | IntOk quantity =>
          match ad_product_id data with
          | None => respond s d (JsonFailure ProductIdRequired) [] []
          | Some product_id =>
              if id_falsy product_id
              then respond s d (JsonFailure ProductIdRequired) [] []
              else
                match get_product (products d) product_id true with
                | Invalid => caught s d ValueError
                | Missing => caught s d Http404
                | Found pk p =>
                    if over_stock p quantity
                    then respond s d
                           (JsonFailure (OnlyInStock (default 0 (p_stock p))))
                           [] []
                    else
                      match add_loop p product_id quantity (get_cart s) with
                      | OverStock =>
                          respond s d
                            (JsonFailure
                               (OnlyInStock (default 0 (p_stock p))))
                            [] []
                      | Merged cart1 =>
                          respond (store_cart s cart1) d
                            (JsonCart (sum_quantities cart1)) [] []
                      | NotInCart =>
                          let cart1 :=
                            get_cart s ++ [new_line pk p quantity] in
                          respond (store_cart s cart1) d
                            (JsonCart (sum_quantities cart1)) [] []
                      end
                end
          end
      end
  end.

(** ** update_cart *)

(** One entry of the submitted list: the value under ['id'] and [int(...)]
    of the value under ['quantity'], [None] for an absent key. *)
Record update_entry := {
  ue_id : option pyid;
  ue_quantity : option pyint
}.

Inductive update_scan :=
| UpdateDone (validated : list item)
| UpdateReject (e : json_error)
| UpdateRaise (e : exn).

(** The loop of [update_cart]. *)
Fixpoint update_loop (ps : gmap Z product) (cart_data : list update_entry)
    (validated : list item) : update_scan :=
  match cart_data with
  | [] => UpdateDone validated
  | entry :: rest =>
      match ue_id entry, ue_quantity entry with
      | Some id, Some IntRaises => UpdateRaise ValueError
      | Some id, Some (IntOk quantity) =>
          if quantity <=? 0 then update_loop ps rest validated
          else
            match get_product ps id true with
            | Invalid => UpdateRaise ValueError
            | Missing => UpdateRaise Http404
            | Found _ p =>
                if over_stock p quantity
                then UpdateReject
                       (OnlyAvailableFor (default 0 (p_stock p)) (p_name p))
                else
                  update_loop ps rest
                    (validated ++
                     [{| i_id := id; i_name := p_name p;
                         i_price := p_price p; i_image := p_image_url p;
                         i_quantity := quantity;
                         i_current_stock := None |}])
            end
      | _, _ => update_loop ps rest validated
      end
  end.

(** [body]: [None] for a body that is no JSON, else [data.get('cart', [])]. *)
Definition update_cart (body : option (list update_entry)) (s : session)
    (d : db) : outcome :=
  match body with
  | None => respond s d (JsonFailure InvalidJSON) [] []
  | Some cart_data =>
      match update_loop (products d) cart_data [] with
      | UpdateRaise e => caught s d e
      | UpdateReject e => respond s d (JsonFailure e) [] []
      | UpdateDone validated_cart =>
          respond (store_cart s validated_cart) d
            (JsonCart (sum_quantities validated_cart)) [] []
      end
  end.

(** ** remove_from_cart *)

(** [body]: [None] for a body that is no JSON, else
    [data.get('product_id')]. *)
Definition remove_from_cart (body : option (option pyid)) (s : session)
    (d : db) : outcome :=
  match body with
  | None => respond s d (JsonFailure InvalidJSON) [] []
  | Some None => respond s d (JsonFailure ProductIdRequired) [] []
  | Some (Some product_id) =>
      if id_falsy product_id
      then respond s d (JsonFailure ProductIdRequired) [] []
      else
        let updated_cart :=
          filter (fun it => py_str (i_id it) <> py_str product_id)
            (get_cart s) in
        respond (store_cart s updated_cart) d
          (JsonCart (sum_quantities updated_cart)) [] []
  end.

(** ** get_cart_count *)

Definition get_cart_count_view (s : session) (d : db) : outcome :=
  respond s d (JsonCount (get_cart_count s)) [] [].

(** ** subscribe *)

Inductive get_or_create_result :=
| GotExisting
| Created (rows : list subscriber)
| GetRaised (e : exn).

(** [Subscriber.objects.get_or_create(email=email, defaults=...)]: [get]
    raises [MultipleObjectsReturned] when several rows match. *)
Definition get_or_create (rows : list subscriber) (email : string)
    : get_or_create_result :=
  match filter (fun r => sub_email r = email) rows with
  | [] => Created (rows ++ [{| sub_email := email; sub_is_active := true |}])
  | [_] => GotExisting
  | _ => GetRaised MultipleObjectsReturned
  end.

(** [body]: [None] for a body that is no JSON, else [data.get('email')]. *)
Definition subscribe (send_mail : mail -> bool) (body : option (option string))
    (s : session) (d : db) : outcome :=
  match body with
  | None => respond s d (JsonFailure InvalidJSON) [] []
  | Some None => respond s d (JsonFailure EmailRequired) [] []
  | Some (Some email) =>
      if bool_decide (email = EmptyString)
      then respond s d (JsonFailure EmailRequired) [] []
      else
        match get_or_create (subscribers d) email with
        | GetRaised e => respond s d (ServerError e) [] []
        | GotExisting => respond s d JsonSuccess [] []
        | Created rows =>
            {| out_session := s;
               out_db := set_subscribers rows d;
               out_response := JsonSuccess;
               out_messages := [];
               out_log :=
                 try_send send_mail (NewSubscriberMail email)
                   SubscriptionEmailFailed;
               out_mails := [NewSubscriberMail email] |}
        end
  end.

(** ** Requests of one visitor *)

Inductive request :=
| ReqCart
| ReqCheckout (r : checkout_request)
| ReqAddToCart (body : option add_data)
| ReqUpdateCart (body : option (list update_entry))
| ReqRemoveFromCart (body : option (option pyid))
| ReqGetCartCount
| ReqSubscribe (body : option (option string)).

(** urls.py: the view a request is routed to. *)
Definition handle (send_mail : mail -> bool) (r : request) (s : session)
    (d : db) : outcome :=
  match r with
  | ReqCart => cart_view s d
  | ReqCheckout c => checkout send_mail c s d
  | ReqAddToCart b => add_to_cart b s d
  | ReqUpdateCart b => update_cart b s d
  | ReqRemoveFromCart b => remove_from_cart b s d
  | ReqGetCartCount => get_cart_count_view s d
  | ReqSubscribe b => subscribe send_mail b s d
  end.

(** One request of the visitor, with the database and the mail transport
    as they are when it arrives: between two requests of one session the
    catalog may have changed in any way. *)
Record arrival := {
  ar_request : request;
  ar_db : db;
  ar_send_mail : mail -> bool
}.

(** The stored session after a sequence of requests. *)
Definition visit (s : session) (rs : list arrival) : session :=
  foldl (fun s1 a =>
           out_session (handle (ar_send_mail a) (ar_request a) s1 (ar_db a)))
        s rs.

(** The same email submitted [n] times in a row: the responses, the mails
    handed to [send_mail] at each submission, and the database after. *)
Fixpoint subscribe_times (send_mail : mail -> bool) (email : string)
    (n : nat) (s : session) (d : db) : list (response * list mail) * db :=
  match n with
  | O => ([], d)
  | S n1 =>
      let o := subscribe send_mail (Some (Some email)) s d in
      let '(rs, d1) := subscribe_times send_mail email n1 s (out_db o) in
      ((out_response o, out_mails o) :: rs, d1)
  end.

End Views.

(** ** Notions the statements use *)

Section Notions.
Context `{PyOps}.

(** The stored [cart_count] is the sum of the quantities of the stored
    cart, and is absent only while no cart is stored. *)
Definition count_stored (s : session) : Prop :=
  match cart s with
  | Some c => cart_count s = Some (sum_quantities c)
  | None => cart_count s = None
  end.

(** The line [checkout] keeps for a cart line, when it keeps one. *)
Definition checkout_line (ps : gmap Z product) (it : item) : option item :=
  match get_product ps (i_id it) true with
  | Found _ p =>
      if over_stock p (i_quantity it) then None
      else Some (set_price (p_price p) it)
  | _ => None
  end.

(** The line the cart view keeps for a cart line, when it keeps one. *)
Definition surviving (ps : gmap Z product) (it : item) : option item :=
  match get_product ps (i_id it) true with
  | Found _ p => Some (cart_line p it)
  | _ => None
  end.

(** The warnings the cart view emits for a cart line. *)
Definition cart_notices (ps : gmap Z product) (it : item) : list message :=
  match get_product ps (i_id it) true with
  | Found _ p =>
      if over_stock p (i_quantity it)
      then [MsgWarning (QuantityAdjusted (p_name p))] else []
  | Missing => [MsgWarning (RemovedUnavailable (i_name it))]
  | Invalid => []
  end.


(** The product of a line is active and, when its stock is finite, covers
    the quantity of the line. *)
Definition fits_stock (ps : gmap Z product) (it : item) : Prop :=
  exists pk p,
    get_product ps (i_id it) true = Found pk p /\
    forall st, p_stock p = Some st -> i_quantity it <= st.

(** The quantity a cart orders of the product [pk]. *)
Definition purchased (pk : Z) (l : list item) : Z :=
  sum_quantities (filter (fun it => to_pk (i_id it) = Some pk) l).

(** A product row with [n] taken off a finite stock. *)
Definition decrement (n : Z) (p : product) : product :=
  set_stock ((fun st => st - n) <$> p_stock p) p.

(** The key [add_to_cart] and [remove_from_cart] compare lines by. *)
Definition line_key (it : item) : string := py_str (i_id it).




(** The line [update_cart] stores for a submitted entry, when it stores
    one. *)
Definition update_line (ps : gmap Z product) (e : update_entry)
    : option item :=
  match ue_id e, ue_quantity e with
  | Some id, Some (IntOk q) =>
      if q <=? 0 then None
      else
        match get_product ps id true with
        | Found _ p =>
            if over_stock p q then None
            else Some {| i_id := id; i_name := p_name p;
                         i_price := p_price p; i_image := p_image_url p;
                         i_quantity := q; i_current_stock := None |}
        | _ => None
        end
  | _, _ => None
  end.

(** What an accepted [add_to_cart] of [q] of the product [pid] does to the
    cart [c]: the first line of that id gets [q] more, within the stock,
    or, when the cart has no line of that id, a new line is appended.
    Every other line stays as it was. *)
Definition add_effect (ps : gmap Z product) (pid : pyid) (q : Z)
    (c c1 : list item) : Prop :=
  exists pk p,
    get_product ps pid true = Found pk p /\
    ((exists l1 it l2,
        c = l1 ++ it :: l2 /\
        Forall (fun x => line_key x <> py_str pid) l1 /\
        line_key it = py_str pid /\
        (forall st, p_stock p = Some st -> i_quantity it + q <= st) /\
        c1 = l1 ++ set_quantity (i_quantity it + q) it :: l2) \/
     (Forall (fun x => line_key x <> py_str pid) c /\
      (forall st, p_stock p = Some st -> q <= st) /\
      c1 = c ++ [new_line pk p q])).

(** The id reads as its primary key prints: so does every JSON integer,
    and a JSON string that is [str] of the integer it is coerced to. *)
Definition canonical_id (pid : pyid) : Prop :=
  forall pk, to_pk pid = Some pk -> str_of_int pk = py_str pid.

(** The products the lines of a cart refer to, in order: the primary
    key each id is coerced to, where it is coerced to one. *)
Definition line_products (l : list item) : list Z :=
  omap (fun it => to_pk (i_id it)) l.


(** Every line carries its id in canonical form. *)
Definition canonical_lines (l : list item) : Prop :=
  Forall (fun it => canonical_id (i_id it)) l.

(** The body of a request to [add_to_cart] for [q] of the product [pk]. *)
Definition add_body (pk q : Z) : option add_data :=
  Some {| ad_product_id := Some (IdInt pk); ad_quantity := Some (IntOk q) |}.

(** The emails of the subscriber table. *)
Definition emails (d : db) : list string := sub_email <$> subscribers d.

(** The rows of the subscriber table that carry [email]. *)
Definition records_of (email : string) (d : db) : list subscriber :=
  filter (fun r => sub_email r = email) (subscribers d).

(** The database after a first subscription of [email]. *)
Definition with_subscriber (email : string) (d : db) : db :=
  set_subscribers
    (subscribers d ++ [{| sub_email := email; sub_is_active := true |}]) d.

End Notions.

(** ** Sample data *)

(** The number of decimal digits of [n]. *)
Definition digits (n : Z) : Z := Z.of_nat (String.length (pretty (Z.abs n))).

Fixpoint pow10 (j : nat) : Z :=
  match j with
  | O => 1
  | S j1 => 10 * pow10 j1
  end.

(** [n] rounded to its [m] leading digits, a tie going to the even
    neighbour. *)
Definition round_digits (m n : Z) : Z :=
  if digits n <=? m then n
  else
    let k := pow10 (Z.to_nat (digits n - m)) in
    let '(q, r) := Z.div_eucl (Z.abs n) k in
    let up := (k <? 2 * r) || ((k =? 2 * r) && Z.odd q) in
    Z.sgn n * ((if up then q + 1 else q) * k).

(** Python's built-ins on the sample data: amounts are counted exactly,
    in hundredths; integers are printed and read in decimal; a column of
    [m] digits keeps the [m] leading digits of an amount, and an amount
    of more than [m] digits cannot be read back. *)
Definition exact_ops : PyOps :=
  {| float := Z; float_zero := 0; float_add := Z.add; float_sub := Z.sub;
     float_mul_int := Z.mul; float_of_decimal_str := fun c => c;
     str_of_int := pretty;
     int_of_str := fun s => Z.of_int <$> NilZero.int_of_string s;
     to_column := round_digits;
     from_column := fun m c => if digits c <=? m then Some c else None |}.

Definition shirt : product :=
  {| p_name := "Shirt"; p_price := 1999; p_stock := Some 5;
     p_is_active := true; p_image_url := "" |}.

Definition cap : product :=
  {| p_name := "Cap"; p_price := 500; p_stock := Some 10;
     p_is_active := true; p_image_url := "/media/products/cap.png" |}.

(** A product taken out of the catalog. *)
Definition scarf : product :=
  {| p_name := "Scarf"; p_price := 1200; p_stock := Some 4;
     p_is_active := false; p_image_url := "" |}.

Definition shop : @db exact_ops :=
  {| products := <[1 := shirt]> (<[2 := cap]> (<[3 := scarf]> ∅));
     orders := []; subscribers := [] |}.

Definition line (pk : Z) (p : product) (q : Z) : item :=
  {| i_id := IdInt pk; i_name := p_name p; i_price := p_price p;
     i_image := p_image_url p; i_quantity := q; i_current_stock := None |}.


Definition entry (pk q : Z) : update_entry :=
  {| ue_id := Some (IdInt pk); ue_quantity := Some (IntOk q) |}.

Definition customer : order_form :=
  {| of_name := "Ada Wong"; of_email := "ada@example.com";
     of_phone := "5551234567"; of_address := "12 Harbour Road, Springfield";
     of_payment_method := "paypal" |}.

(** The catalog some time before [shop]: product 1 was called "Tee", cost
    less and had more stock; the scarf was still sold. *)
Definition tee : product :=
  {| p_name := "Tee"; p_price := 1500; p_stock := Some 10;
     p_is_active := true; p_image_url := "" |}.

Definition scarf_on_sale : product :=
  {| p_name := "Scarf"; p_price := 1200; p_stock := Some 4;
     p_is_active := true; p_image_url := "" |}.

Definition earlier : @db exact_ops :=
  {| products := <[1 := tee]> (<[2 := cap]> (<[3 := scarf_on_sale]> ∅));
     orders := []; subscribers := [] |}.

Definition delivers : @mail exact_ops -> bool := fun _ => true.

Definition bounces : @mail exact_ops -> bool := fun _ => false.

(** A request arriving while the catalog is [d]. *)
Definition arrive (d : @db exact_ops) (r : request)
    : @arrival exact_ops :=
  {| ar_request := r; ar_db := d; ar_send_mail := delivers |}.

(** Three shirts and a cap, put in the cart while the catalog is [shop]. *)
Definition shirts_and_cap : session :=
  @visit exact_ops empty_session
    [arrive shop (ReqAddToCart (add_body 1 3));
     arrive shop (ReqAddToCart (add_body 2 1))].

(** The shirt submitted twice in one [update_cart], three of it each
    time. *)
Definition shirt_twice : session :=
  @visit exact_ops empty_session
    [arrive shop (ReqUpdateCart (Some [entry 1 3; entry 1 3]))].

(** Seven of product 1 and a cap, put in the cart before the catalog
    changed. *)
Definition seven_and_cap : session :=
  @visit exact_ops empty_session
    [arrive earlier (ReqAddToCart (add_body 1 7));
     arrive earlier (ReqAddToCart (add_body 2 1))].


(** Two of product 1, put in the cart before it was renamed. *)
Definition two_tees : session :=
  @visit exact_ops empty_session
    [arrive earlier (ReqAddToCart (add_body 1 2))].

(** A product at the highest price the ten digits of [price] hold,
    99999999.99, and two of it in a cart. *)
Definition villa : product :=
  {| p_name := "Villa"; p_price := 9999999999; p_stock := Some 3;
     p_is_active := true; p_image_url := "" |}.

Definition estate : @db exact_ops :=
  {| products := <[1 := villa]> ∅; orders := []; subscribers := [] |}.

Definition two_villas : session :=
  @visit exact_ops empty_session
    [arrive estate (ReqAddToCart (add_body 1 2))].

(** * The rest of the store *)

Section Store.
Context `{PyOps}.

(** ** success *)

(** Whether the decimal columns of an order row can be read back: the
    converter of each quantizes the number kept to two places in a context
    of the digits of the column. *)
Definition readable (o : order) : bool :=
  bool_decide
    (is_Some (from_column 10 (o_total o)) /\
     is_Some (from_column 6 (o_shipping_cost o)) /\
     is_Some (from_column 6 (o_tax_amount o)) /\
     is_Some (from_column 6 (o_discount_amount o)) /\
     is_Some (from_column 10 (o_final_total o))).

(** [Order.objects.get(id=oid)]: the row found, [Order.DoesNotExist],
    [MultipleObjectsReturned], or the [decimal.InvalidOperation] of a
    column that cannot be read. *)
Inductive order_lookup :=
| OrderFound (o : order)
| OrderMissing
| OrderAmbiguous
| OrderUnreadable.

Definition get_order (os : list order) (oid : Z) : order_lookup :=
  match filter (fun o => o_id o = oid) os with
  | [] => OrderMissing
  | [o] => if readable o then OrderFound o else OrderUnreadable
  | _ => OrderAmbiguous
  end.

(** What [success] renders: the order put in the context, if any, and
    whether the warning "Order details not found" was flashed. *)
Inductive success_page :=
| SuccessPage (shown : option order) (warned : bool)
| SuccessRaised (e : exn).

Definition success (s : session) (d : db) : success_page :=
  match last_order_id s with
  | None => SuccessPage None false
  | Some order_id =>
      if order_id =? 0 then SuccessPage None false
      else
        match get_order (orders d) order_id with
        | OrderFound o => SuccessPage (Some o) false
        | OrderMissing => SuccessPage None true
        | OrderAmbiguous => SuccessRaised MultipleObjectsReturned
        | OrderUnreadable => SuccessRaised InvalidOperation
        end
  end.

(** ** Methods of the models *)

(** [Order.get_items]: the lines the text of [items] decodes to. *)
Definition get_items (o : order) : list item := o_items o.

(** [Order.get_item_count]: every line carries a quantity. *)
Definition get_item_count (o : order) : Z := sum_quantities (get_items o).

(** [Order.can_be_cancelled] *)
Definition can_be_cancelled (o : order) : bool :=
  bool_decide (o_status o ∈ ["pending"; "confirmed"]).

(** [Product.in_stock]; [None] where [self.stock > 0] raises [TypeError]. *)
Definition in_stock (p : product) : option bool :=
  (fun st => 0 <? st) <$> p_stock p.

(** [Product.low_stock] *)
Definition low_stock (p : product) : option bool :=
  (fun st => (0 <? st) && (st <=? 10)) <$> p_stock p.

(** [Subscriber.unsubscribe], on the columns kept here. *)
Definition unsubscribe (r : subscriber) : subscriber :=
  {| sub_email := sub_email r; sub_is_active := false |}.

(** ** Actions of the admin *)

(** [ProductAdmin.clear_stock]: [queryset.update(stock=0)] on the rows
    whose keys are selected. *)
Definition clear_stock (selected : list Z) (ps : gmap Z product)
    : gmap Z product :=
  foldr (fun pk m => alter (set_stock (Some 0)) pk m) ps selected.

(** [SubscriberAdmin.deactivate_subscribers]: every selected subscriber
    is unsubscribed. *)
Definition deactivate_subscribers (selected : list string)
    (rows : list subscriber) : list subscriber :=
  (fun r => if bool_decide (sub_email r ∈ selected) then unsubscribe r
            else r) <$> rows.

(** An entry [update_cart] passes over: a key is absent, or the quantity
    is not positive. *)
Definition passed_over (e : update_entry) : bool :=
  match ue_id e, ue_quantity e with
  | Some _, Some (IntOk q) => q <=? 0
  | Some _, Some IntRaises => false
  | _, _ => true
  end.

(** Every stock of the table is one the column accepts. *)
Definition stocks_valid (ps : gmap Z product) : Prop :=
  forall pk p, ps !! pk = Some p ->
    field_accepts Product_stock (p_stock p) = true.

End Store.

(** * forms.py *)

Inductive validation_error :=
| NameTooShort
| MessageTooShort
| PhoneTooShort
| AddressIncomplete
| MinAboveMax.

Section Forms.

(** A text is the list of its characters; [isdigit] and [isspace] are the
    tests of [str] on one character. *)
Context {char : Type} (isdigit isspace : char -> bool).

Fixpoint lstrip (t : list char) : list char :=
  match t with
  | c :: t1 => if isspace c then lstrip t1 else t
  | [] => []
  end.

Definition rstrip (t : list char) : list char :=
  reverse (lstrip (reverse t)).

(** [str.strip()] *)
Definition strip (t : list char) : list char := rstrip (lstrip t).

(** [ContactForm.clean_name] *)
Definition clean_name (name : list char) : validation_error + list char :=
  if (length (strip name) <? 2)%nat then inl NameTooShort
  else inr (strip name).

(** [ContactForm.clean_message] *)
Definition clean_message (message : list char)
    : validation_error + list char :=
  if (length (strip message) <? 10)%nat then inl MessageTooShort
  else inr (strip message).

(** [OrderForm.clean_phone] *)
Definition clean_phone (phone : list char) : validation_error + list char :=
  let phone := filter (fun c => isdigit c = true) phone in
  if (length phone <? 10)%nat then inl PhoneTooShort else inr phone.

(** [OrderForm.clean_address] *)
Definition clean_address (address : list char)
    : validation_error + list char :=
  if (length (strip address) <? 10)%nat then inl AddressIncomplete
  else inr (strip address).

(** A text without white space at either end. *)
Definition trimmed (t : list char) : Prop :=
  (forall c, head t = Some c -> isspace c = false) /\
  (forall c, last t = Some c -> isspace c = false).

End Forms.

(** The truth value of an optional [Decimal]: [None] and zero are false. *)
Definition decimal_truthy (v : option decimal) : bool :=
  match v with
  | Some c => negb (c =? 0)
  | None => false
  end.

(** [ProductFilterForm.clean], on [price_min] and [price_max]: the error
    it raises, if any. *)
Definition filter_clean (price_min price_max : option decimal)
    : option validation_error :=
  if decimal_truthy price_min && decimal_truthy price_max then
    match price_min, price_max with
    | Some lo, Some hi => if hi <? lo then Some MinAboveMax else None
    | _, _ => None
    end
  else None.

(** * Products and reviews as the admin saves them *)

Section Catalog.
Context `{PyOps}.

(** [category_prefix c] is [c[:3].upper()]; [round_avg l] is
    [round(avg, 1)] for the average of the ratings [l]. *)
Context (category_prefix : string -> string).
Context {rating : Type} (round_avg : list Z -> rating).

(** The columns of [Product] that [Product.save] and the reviews write;
    [pr_id] is [None] until the first save. *)
Record product_row := {
  pr_id : option Z;
  pr_category : string;
  pr_sku : option string;
  pr_rating : rating;
  pr_review_count : Z
}.

Definition set_id (k : option Z) (p : product_row) : product_row :=
  {| pr_id := k; pr_category := pr_category p; pr_sku := pr_sku p;
     pr_rating := pr_rating p; pr_review_count := pr_review_count p |}.

Definition set_sku (k : option string) (p : product_row) : product_row :=
  {| pr_id := pr_id p; pr_category := pr_category p; pr_sku := k;
     pr_rating := pr_rating p; pr_review_count := pr_review_count p |}.

Definition set_rating (r : rating) (n : Z) (p : product_row) : product_row :=
  {| pr_id := pr_id p; pr_category := pr_category p; pr_sku := pr_sku p;
     pr_rating := r; pr_review_count := n |}.

(** [not self.sku] *)
Definition sku_falsy (k : option string) : bool :=
  match k with
  | Some t => bool_decide (t = EmptyString)
  | None => true
  end.

(** [self.id or 'NEW'], formatted *)
Definition id_or_new (k : option Z) : string :=
  match k with
  | Some n => if n =? 0 then "NEW" else str_of_int n
  | None => "NEW"
  end.

Definition generated_sku (p : product_row) : string :=
  category_prefix (pr_category p) +:+ "-" +:+ id_or_new (pr_id p).

(** The key the table gives a new row. *)
Definition next_id (ids : list (option Z)) : Z :=
  1 + foldr (fun k acc => Z.max (default 0 k) acc) 0 ids.

(** [sku] is [unique]: another row has the sku of [p], which is not
    null. *)
Definition sku_taken (rows : list product_row) (p : product_row) : Prop :=
  Exists (fun r => pr_id r <> pr_id p /\ is_Some (pr_sku p) /\
                   pr_sku r = pr_sku p) rows.

(** The table after the row [p] is written: the row of its key is
    replaced, or [p] is appended. *)
Definition write_row (rows : list product_row) (p : product_row)
    : list product_row :=
  if bool_decide (pr_id p ∈ pr_id <$> rows)
  then (fun r => if bool_decide (pr_id r = pr_id p) then p else r) <$> rows
  else rows ++ [p].

(** [Product.save]: the object as saved and the table, or the exception. *)
Definition Product_save (rows : list product_row) (p : product_row)
    : exn + product_row * list product_row :=
  let p1 := if sku_falsy (pr_sku p) then set_sku (Some (generated_sku p)) p
            else p in
  let p2 := match pr_id p1 with
            | Some _ => p1
            | None => set_id (Some (next_id (pr_id <$> rows))) p1
            end in
  if bool_decide (sku_taken rows p2) then inl IntegrityError
  else inr (p2, write_row rows p2).

(** [ProductReview] *)
Record review := {
  rv_id : option Z;
  rv_product : Z;
  rv_email : string;
  rv_rating : Z;
  rv_is_approved : bool
}.

Definition set_review_id (k : option Z) (r : review) : review :=
  {| rv_id := k; rv_product := rv_product r; rv_email := rv_email r;
     rv_rating := rv_rating r; rv_is_approved := rv_is_approved r |}.

Definition set_approved (b : bool) (r : review) : review :=
  {| rv_id := rv_id r; rv_product := rv_product r; rv_email := rv_email r;
     rv_rating := rv_rating r; rv_is_approved := b |}.

Record catalog := {
  product_rows : list product_row;
  reviews : list review
}.

Definition set_product_rows (rows : list product_row) (c : catalog)
    : catalog :=
  {| product_rows := rows; reviews := reviews c |}.

Definition set_reviews (rs : list review) (c : catalog) : catalog :=
  {| product_rows := product_rows c; reviews := rs |}.

(** [self.product.reviews.filter(is_approved=True)] *)
Definition approved_reviews (pk : Z) (rs : list review) : list review :=
  filter (fun r => rv_product r = pk /\ rv_is_approved r = true) rs.

(** [unique_together = ['product', 'email']] *)
Definition review_clash (rs : list review) (r : review) : Prop :=
  Exists (fun x => rv_id x <> rv_id r /\ rv_product x = rv_product r /\
                   rv_email x = rv_email r) rs.

Definition write_review (rs : list review) (r : review) : list review :=
  if bool_decide (rv_id r ∈ rv_id <$> rs)
  then (fun x => if bool_decide (rv_id x = rv_id r) then r else x) <$> rs
  else rs ++ [r].

(** [ProductReview.update_product_rating]: the catalog it leaves, and the
    exception it raises, if any. *)
Definition update_product_rating (c : catalog) (r : review)
    : catalog * option exn :=
  match approved_reviews (rv_product r) (reviews c) with
  | [] => (c, None)
  | approved =>
      match filter (fun p => pr_id p = Some (rv_product r))
              (product_rows c) with
      | [] => (c, Some DoesNotExist)
      | p :: _ =>
          match Product_save (product_rows c)
                  (set_rating (round_avg (rv_rating <$> approved))
                     (Z.of_nat (length approved)) p) with
          | inl e => (c, Some e)
          | inr (_, rows) => (set_product_rows rows c, None)
          end
      end
  end.

(** [ProductReview.save] *)
Definition ProductReview_save (c : catalog) (r : review)
    : catalog * option exn :=
  if bool_decide (review_clash (reviews c) r) then (c, Some IntegrityError)
  else if bool_decide (Some (rv_product r) ∈ pr_id <$> product_rows c) then
    let r1 := match rv_id r with
              | Some _ => r
              | None => set_review_id (Some (next_id (rv_id <$> reviews c))) r
              end in
    let c1 := set_reviews (write_review (reviews c) r1) c in
    if rv_is_approved r1 then update_product_rating c1 r1 else (c1, None)
  else (c, Some IntegrityError).

(** [ProductReviewAdmin.approve_reviews] and [disapprove_reviews]:
    [queryset.update(is_approved=...)] on the selected reviews. *)
Definition mark_reviews (b : bool) (selected : list Z) (c : catalog)
    : catalog :=
  set_reviews
    ((fun r => if bool_decide (rv_id r ∈ Some <$> selected)
               then set_approved b r else r) <$> reviews c) c.

Definition approve_reviews := mark_reviews true.

Definition disapprove_reviews := mark_reviews false.

(** The count kept on the product [pk] is the number of its approved
    reviews. *)
Definition counts_agree (pk : Z) (c : catalog) : Prop :=
  forall p, p ∈ product_rows c -> pr_id p = Some pk ->
    pr_review_count p =
    Z.of_nat (length (approved_reviews pk (reviews c))).

End Catalog.

(** ** Sample texts and a sample catalog *)

(** The tests of [str] on the characters of ASCII. *)
Definition ascii_isdigit (a : Ascii.ascii) : bool :=
  (48 <=? Ascii.nat_of_ascii a)%nat && (Ascii.nat_of_ascii a <=? 57)%nat.

Definition ascii_isspace (a : Ascii.ascii) : bool :=
  bool_decide (Ascii.nat_of_ascii a ∈ [9; 10; 11; 12; 13; 28; 29; 30; 31; 32]%nat).

Definition text (t : string) : list Ascii.ascii := list_ascii_of_string t.

(** [c[:3].upper()] on a category written in ASCII. *)
Definition three_upper (c : string) : string :=
  string_of_list_ascii
    ((fun a => if (97 <=? Ascii.nat_of_ascii a)%nat && (Ascii.nat_of_ascii a <=? 122)%nat
               then Ascii.ascii_of_nat (Ascii.nat_of_ascii a - 32) else a)
       <$> take 3 (list_ascii_of_string c)).

(** Ratings in tenths: the average of [l] to the nearest tenth. *)
Definition tenths (l : list Z) : Z :=
  (20 * foldr Z.add 0 l + Z.of_nat (length l)) / (2 * Z.of_nat (length l)).

(** Two products of the admin's form, not saved yet, the sku left blank. *)
Definition jacket : @product_row Z :=
  {| pr_id := None; pr_category := "Menswear"; pr_sku := None;
     pr_rating := 0; pr_review_count := 0 |}.

Definition jeans : @product_row Z :=
  {| pr_id := None; pr_category := "Menswear"; pr_sku := Some EmptyString;
     pr_rating := 0; pr_review_count := 0 |}.

(** A product with one approved review of four stars. *)
Definition reviewed : @catalog Z :=
  {| product_rows :=
       [{| pr_id := Some 7; pr_category := "Menswear";
           pr_sku := Some "MEN-7"; pr_rating := 40;
           pr_review_count := 1 |}];
     reviews :=
       [{| rv_id := Some 1; rv_product := 7; rv_email := "ada@example.com";
           rv_rating := 4; rv_is_approved := true |}] |}.

Definition five_stars : review :=
  {| rv_id := None; rv_product := 7; rv_email := "bob@example.com";
     rv_rating := 5; rv_is_approved := true |}.

(** * Properties *)

Section Properties.
Context `{PyOps}.

Implicit Types (ps : gmap Z product) (it : item) (p : product).
Implicit Types (s : session) (d : db) (l v w : list item).

(** ** Sums, lookups and the stock guard *)

Lemma sum_quantities_app l1 l2 :
  sum_quantities (l1 ++ l2) = sum_quantities l1 + sum_quantities l2.
Proof.
  unfold sum_quantities. induction l1 as [|it l1 IH]; simpl; [done|].
  rewrite IH. lia.
Qed.

Lemma get_product_found ps id a pk p :
  get_product ps id a = Found pk p ->
  to_pk id = Some pk /\ ps !! pk = Some p /\
  (a = true -> p_is_active p = true).
Proof.
  unfold get_product. destruct (to_pk id) as [k|]; [|done].
  destruct (ps !! k) as [q|] eqn:E; [|done].
  destruct a, (p_is_active q) eqn:A; simpl; intros [= <- <-]; by split_and!.
Qed.


Lemma over_stock_false p q :
  over_stock p q = false <-> forall st, p_stock p = Some st -> q <= st.
Proof.
  unfold over_stock. destruct (p_stock p) as [st|]; split; try done.
  - intros Hlt st' [= <-]. lia.
  - intros Hle. specialize (Hle st eq_refl). lia.
Qed.


(** ** The loops, as maps over the cart *)

Lemma omap_cons_eq {A B} (f : A -> option B) (x : A) (k : list A) :
  omap f (x :: k) =
  match f x with Some y => y :: omap f k | None => omap f k end.
Proof. done. Qed.

Lemma cart_loop_some ps l v t ms v1 t1 ms1 :
  cart_loop ps l v t ms = Some (v1, t1, ms1) ->
  v1 = v ++ omap (surviving ps) l /\
  t1 = foldl (fun t it => float_add t (line_subtotal it)) t
         (omap (surviving ps) l) /\
  ms1 = ms ++ (l ≫= cart_notices ps) /\
  Forall (fun it => get_product ps (i_id it) true <> Invalid) l.
Proof.
  revert v t ms v1 t1 ms1.
  induction l as [|it l IH]; intros v t ms v1 t1 ms1.
  - intros [= <- <- <-]. by rewrite !app_nil_r.
  - cbn [cart_loop]. rewrite omap_cons_eq, bind_cons.
    assert (Hs := eq_refl (surviving ps it)).
    assert (Hn := eq_refl (cart_notices ps it)).
    unfold surviving in Hs at 2. unfold cart_notices in Hn at 2.
    destruct (get_product ps (i_id it) true) as [pk p| |] eqn:E; [| |done];
      rewrite Hs, Hn; intros Hl; apply IH in Hl as (-> & -> & -> & Hf);
      rewrite <- !app_assoc; split_and!; try done.
    + by destruct (over_stock p (i_quantity it)); rewrite <- ?app_assoc.
    + constructor; [congruence|done].
    + constructor; [congruence|done].
Qed.

Lemma checkout_loop_done ps l v t v1 t1 :
  checkout_loop ps l v t = ScanDone v1 t1 ->
  exists w,
    v1 = v ++ w /\
    Forall2 (fun it it1 => checkout_line ps it = Some it1) l w /\
    t1 = foldl (fun t it => float_add t (line_subtotal it)) t w.
Proof.
  revert v t. induction l as [|it l IH]; simpl; intros v t.
  - intros [= <- <-]. exists []. by rewrite app_nil_r.
  - destruct (get_product ps (i_id it) true) as [pk p| |] eqn:E; [|done..].
    destruct (over_stock p (i_quantity it)) eqn:O; [done|].
    intros Hl. apply IH in Hl as (w & -> & Hw & ->).
    exists (set_price (p_price p) it :: w). rewrite <- app_assoc.
    repeat split; try done. constructor; [|done].
    unfold checkout_line. by rewrite E, O.
Qed.

Lemma checkout_line_quantity ps it it1 :
  checkout_line ps it = Some it1 -> i_quantity it1 = i_quantity it.
Proof.
  unfold checkout_line. destruct (get_product ps (i_id it) true); [|done..].
  destruct (over_stock p (i_quantity it)); [done|]. by intros [= <-].
Qed.

Lemma checkout_lines_sum ps l w :
  Forall2 (fun it it1 => checkout_line ps it = Some it1) l w ->
  sum_quantities w = sum_quantities l.
Proof.
  induction 1 as [|it it1 l w Hit _ IH]; simpl; [done|].
  rewrite IH. by rewrite (checkout_line_quantity _ _ _ Hit).
Qed.

(** ** The stored count *)

Lemma count_stored_store_cart s l : count_stored (store_cart s l).
Proof. done. Qed.









Lemma count_stored_get s :
  count_stored s -> get_cart_count s = sum_quantities (get_cart s).
Proof.
  unfold count_stored, get_cart_count, get_cart.
  destruct (cart s); by intros ->.
Qed.


(** ** The stock loop of checkout *)

Lemma purchased_cons pk it l :
  purchased pk (it :: l) =
  if decide (to_pk (i_id it) = Some pk)
  then i_quantity it + purchased pk l else purchased pk l.
Proof.
  unfold purchased. rewrite filter_cons. by case_decide.
Qed.

Lemma decrement_zero p : decrement 0 p = p.
Proof.
  destruct p as [n pr [st|] a im]; unfold decrement, set_stock; simpl;
    [|done].
  by rewrite Z.sub_0_r.
Qed.

Lemma decrement_unlimited n m p :
  p_stock p = None -> decrement n p = decrement m p.
Proof. unfold decrement. by intros ->. Qed.

Lemma decrement_set_stock n q st p :
  decrement n (set_stock (Some (st - q)) p) =
  set_stock (Some (st - (q + n))) p.
Proof.
  unfold decrement, set_stock. simpl. by rewrite <- Z.sub_add_distr.
Qed.

Lemma commit_stock_done ps l ps1 :
  commit_stock ps l = (ps1, None) ->
  forall pk, ps1 !! pk = decrement (purchased pk l) <$> ps !! pk.
Proof.
  revert ps. induction l as [|it l IH]; intros ps.
  - intros [= <-] pk. unfold purchased. simpl.
    destruct (ps !! pk) as [p|]; simpl; [|done]. by rewrite decrement_zero.
  - cbn [commit_stock].
    destruct (get_product ps (i_id it) false) as [k p| |] eqn:E; [|done..].
    destruct (get_product_found _ _ _ _ _ E) as (Hk & Hp & _).
    destruct (p_stock p) as [st|] eqn:Hst.
    + unfold save_product.
      destruct (field_accepts _ _); [|done].
      intros Hl pk. rewrite (IH _ Hl pk), purchased_cons.
      case_decide as Hpk.
      * assert (k = pk) as -> by congruence.
        rewrite lookup_insert_eq, Hp. simpl.
        rewrite decrement_set_stock. unfold decrement.
        by rewrite Hst.
      * rewrite lookup_insert_ne; [done|congruence].
    + intros Hl pk. rewrite (IH _ Hl pk), purchased_cons.
      case_decide as Hpk; [|done].
      assert (k = pk) as -> by congruence.
      rewrite Hp. simpl. f_equal. by apply decrement_unlimited.
Qed.


Lemma commit_stock_failed ps l ps1 e :
  commit_stock ps l = (ps1, Some e) ->
  exists served it rest,
    l = served ++ it :: rest /\
    commit_stock ps served = (ps1, None) /\
    match get_product ps1 (i_id it) false with
    | Found k p =>
        e = IntegrityError /\
        exists st, p_stock p = Some st /\ st < i_quantity it
    | Missing => e = DoesNotExist
    | Invalid => e = ValueError
    end.
Proof.
  revert ps. induction l as [|it l IH]; intros ps; [done|].
  cbn [commit_stock].
  destruct (get_product ps (i_id it) false) as [k p| |] eqn:E.
  - destruct (p_stock p) as [st|] eqn:Hst.
    + unfold save_product.
      destruct (field_accepts _ _) eqn:Hacc.
      * intros Hl. apply IH in Hl as (served & it1 & rest & -> & Hd & Hf).
        exists (it :: served), it1, rest. split_and!; [done| |done].
        cbn [commit_stock]. rewrite E, Hst. unfold save_product.
        by rewrite Hacc.
      * intros [= <- <-]. exists [], it, l. split_and!; [done..|].
        rewrite E. split; [done|]. exists st. split; [done|].
        simpl in Hacc. lia.
    + intros Hl. apply IH in Hl as (served & it1 & rest & -> & Hd & Hf).
      exists (it :: served), it1, rest. split_and!; [done| |done].
      cbn [commit_stock]. by rewrite E, Hst.
  - intros [= <- <-]. exists [], it, l. by rewrite E.
  - intros [= <- <-]. exists [], it, l. by rewrite E.
Qed.

(** C2, as the code has it.  When a stock decrement of the commit is
    refused, the checkout ends in a server error with the session as it
    was and no mail attempted; the order saved before the stock loop stays
    in the database, and so do the decrements of the lines before the
    refused one, whose quantity exceeds what is left of its product. *)
Theorem checkout_commit_failure_keeps_order
    (send_mail : mail -> bool) (f : order_form) (s : session) (d : db) :
  let out := checkout send_mail (POST (Some f)) s d in
  out_response out = ServerError IntegrityError ->
  out_session out = s /\
  out_mails out = [] /\
  exists validated o served it rest,
    Forall2 (fun it0 it1 => checkout_line (products d) it0 = Some it1)
      (get_cart s) validated /\
    orders (out_db out) = orders d ++ [o] /\
    o_status o = "pending" /\
    o_items o = validated /\
    validated = served ++ it :: rest /\
    (forall pk,
       products (out_db out) !! pk =
       decrement (purchased pk served) <$> products d !! pk) /\
    exists k p st,
      get_product (products (out_db out)) (i_id it) false = Found k p /\
      p_stock p = Some st /\ st < i_quantity it.
Proof.
  simpl. unfold checkout.
  destruct (get_cart s) as [|it0 l] eqn:Hc; [done|].
  destruct (checkout_loop _ _ _ _) as [v t| |e0] eqn:Hl; [|done|].
  - apply checkout_loop_done in Hl as (w & -> & Hw & ->). simpl.
    destruct (commit_stock _ _) as [ps [e|]] eqn:Hs; [|done].
    simpl. intros [= ->]. split_and!; [done..|].
    apply commit_stock_failed in Hs as (served & it & rest & -> & Hd & Hf).
    eexists _, _, served, it, rest. split_and!; try done.
    + simpl. intros pk. by apply commit_stock_done.
    + simpl. destruct (get_product ps (i_id it) false) as [k p| |];
        [|done..].
      destruct Hf as (_ & st & Hst & Hlt). by exists k, p, st.
  - simpl. intros [= ->]. clear Hc. exfalso. revert Hl.
    generalize (@nil item) float_zero. generalize (it0 :: l).
    induction l0 as [|it1 l1 IH]; intros v t; simpl; [done|].
    destruct (get_product _ _ _) as [k p| |]; [|done..].
    destruct (over_stock _ _); [done|]. apply IH.
Qed.

(** ** What each view stores *)

Lemma cart_view_render s d v t :
  out_response (cart_view s d) = RenderCart v t ->
  v = omap (surviving (products d)) (get_cart s) /\
  t = cart_total v /\
  get_cart (out_session (cart_view s d)) = v /\
  out_messages (cart_view s d) = get_cart s ≫= cart_notices (products d) /\
  out_db (cart_view s d) = d /\
  Forall (fun it => get_product (products d) (i_id it) true <> Invalid)
    (get_cart s).
Proof.
  unfold cart_view.
  destruct (cart_loop _ _ _ _ _) as [[[v1 t1] ms]|] eqn:Hl; [|done].
  apply cart_loop_some in Hl as (-> & -> & -> & Hf). simpl.
  by intros [= <- <-].
Qed.

Lemma checkout_render send_mail req s d v t :
  out_response (checkout send_mail req s d) = RenderCheckout v t ->
  Forall2 (fun it it1 => checkout_line (products d) it = Some it1)
    (get_cart s) v /\
  t = cart_total v /\
  get_cart (out_session (checkout send_mail req s d)) = v /\
  out_db (checkout send_mail req s d) = d.
Proof.
  unfold checkout.
  destruct (get_cart s) as [|it l] eqn:Hc; [done|].
  destruct (checkout_loop _ _ _ _) as [v1 t1| |] eqn:Hl; [|done..].
  apply checkout_loop_done in Hl as (w & -> & Hw & ->). simpl.
  destruct req as [|[f|]]; simpl; try by intros [= <- <-].
  destruct (commit_stock _ _) as [ps [e|]]; done.
Qed.

Lemma update_loop_done ps data v v1 :
  update_loop ps data v = UpdateDone v1 ->
  v1 = v ++ omap (update_line ps) data.
Proof.
  revert v. induction data as [|e data IH]; intros v.
  - intros [= <-]. by rewrite app_nil_r.
  - cbn [update_loop]. rewrite omap_cons_eq. unfold update_line at 1.
    destruct (ue_id e) as [id|]; [|by apply IH].
    destruct (ue_quantity e) as [[q|]|]; [|done|by apply IH].
    destruct (q <=? 0); [by apply IH|].
    destruct (get_product ps id true) as [pk p| |]; [|done..].
    destruct (over_stock p q); [done|].
    intros Hl. apply IH in Hl as ->. by rewrite <- app_assoc.
Qed.

Lemma update_cart_accepted body s d n :
  out_response (update_cart body s d) = JsonCart n ->
  exists data,
    body = Some data /\
    get_cart (out_session (update_cart body s d)) =
      omap (update_line (products d)) data /\
    out_db (update_cart body s d) = d.
Proof.
  unfold update_cart. destruct body as [data|]; [|done].
  destruct (update_loop _ _ _) as [v| |] eqn:Hl; [|done..].
  apply update_loop_done in Hl as ->. intros _. by exists data.
Qed.

Lemma add_loop_merged p pid q c c1 :
  add_loop p pid q c = Merged c1 ->
  exists l1 it l2,
    c = l1 ++ it :: l2 /\
    Forall (fun x => line_key x <> py_str pid) l1 /\
    line_key it = py_str pid /\
    over_stock p (i_quantity it + q) = false /\
    c1 = l1 ++ set_quantity (i_quantity it + q) it :: l2.
Proof.
  revert c1. induction c as [|x c IH]; intros c1; [done|].
  cbn [add_loop]. case_bool_decide as Hk.
  - destruct (over_stock _ _) eqn:O; [done|]. intros [= <-].
    by exists [], x, c.
  - destruct (add_loop p pid q c) as [|c2|]; [done| |done].
    intros [= <-].
    destruct (IH c2 eq_refl) as (l1 & it & l2 & -> & Hl1 & Hit & O & ->).
    exists (x :: l1), it, l2. split_and!; try done. by constructor.
Qed.

Lemma add_loop_not_in_cart p pid q c :
  add_loop p pid q c = NotInCart ->
  Forall (fun x => line_key x <> py_str pid) c.
Proof.
  induction c as [|x c IH]; [done|].
  cbn [add_loop]. case_bool_decide as Hk.
  - by destruct (over_stock _ _).
  - destruct (add_loop p pid q c); [|done..].
    intros _. constructor; [done|]. by apply IH.
Qed.

Lemma add_to_cart_accepted body s d n :
  out_response (add_to_cart body s d) = JsonCart n ->
  exists data pid q,
    body = Some data /\
    ad_product_id data = Some pid /\
    id_falsy pid = false /\
    default (IntOk 1) (ad_quantity data) = IntOk q /\
    add_effect (products d) pid q (get_cart s)
      (get_cart (out_session (add_to_cart body s d))) /\
    out_db (add_to_cart body s d) = d.
Proof.
  unfold add_to_cart. destruct body as [data|]; [|done].
  destruct (default _ _) as [q|] eqn:Hq; [|done].
  destruct (ad_product_id data) as [pid|] eqn:Hp; [|done].
  destruct (id_falsy pid) eqn:Hf; [done|].
  destruct (get_product _ _ _) as [pk p| |] eqn:E; [|done..].
  destruct (over_stock p q) eqn:O; [done|].
  destruct (add_loop _ _ _ _) as [|c1|] eqn:Hl; [| |done]; intros _;
    exists data, pid, q; (split_and!; [done..| |done]); exists pk, p;
    (split; [done|]).
  - right. split_and!; [|by apply over_stock_false|done].
    by eapply add_loop_not_in_cart.
  - left. apply add_loop_merged in Hl as (l1 & it & l2 & ? & ? & ? & ? & ?).
    exists l1, it, l2. split_and!; try done. by apply over_stock_false.
Qed.

Lemma remove_from_cart_accepted body s d n :
  out_response (remove_from_cart body s d) = JsonCart n ->
  exists pid,
    body = Some (Some pid) /\
    get_cart (out_session (remove_from_cart body s d)) =
      filter (fun it => line_key it <> py_str pid) (get_cart s) /\
    out_db (remove_from_cart body s d) = d.
Proof.
  unfold remove_from_cart. destruct body as [[pid|]|]; [|done..].
  destruct (id_falsy pid); [done|]. intros _. by exists pid.
Qed.

(** ** Lines and the stock of their product *)

Lemma surviving_some ps it it1 :
  surviving ps it = Some it1 ->
  exists pk p,
    get_product ps (i_id it) true = Found pk p /\ it1 = cart_line p it.
Proof.
  unfold surviving.
  destruct (get_product ps (i_id it) true) as [pk p| |]; [|done..].
  intros [= <-]. by exists pk, p.
Qed.

Lemma checkout_line_some ps it it1 :
  checkout_line ps it = Some it1 ->
  exists pk p,
    get_product ps (i_id it) true = Found pk p /\
    over_stock p (i_quantity it) = false /\
    it1 = set_price (p_price p) it.
Proof.
  unfold checkout_line.
  destruct (get_product ps (i_id it) true) as [pk p| |]; [|done..].
  destruct (over_stock p (i_quantity it)) eqn:O; [done|].
  intros [= <-]. by exists pk, p.
Qed.

Lemma update_line_some ps e it :
  update_line ps e = Some it ->
  exists pk p,
    ue_id e = Some (i_id it) /\
    ue_quantity e = Some (IntOk (i_quantity it)) /\
    0 < i_quantity it /\
    get_product ps (i_id it) true = Found pk p /\
    over_stock p (i_quantity it) = false /\
    i_name it = p_name p /\ i_price it = p_price p /\
    i_image it = p_image_url p.
Proof.
  unfold update_line.
  destruct (ue_id e) as [id|]; [|done].
  destruct (ue_quantity e) as [[q|]|]; [|done..].
  destruct (q <=? 0) eqn:Hq; [done|].
  destruct (get_product ps id true) as [pk p| |] eqn:E; [|done..].
  destruct (over_stock p q) eqn:O; [done|].
  intros [= <-]. exists pk, p. simpl. split_and!; try done. lia.
Qed.

Lemma cart_line_fits ps it pk p :
  get_product ps (i_id it) true = Found pk p ->
  fits_stock ps (cart_line p it).
Proof.
  intros E. exists pk, p. split.
  { unfold cart_line. by destruct (over_stock p (i_quantity it)). }
  intros st Hst. unfold cart_line.
  destruct (over_stock p (i_quantity it)) eqn:O; simpl.
  - rewrite Hst. simpl. lia.
  - by apply (over_stock_false p).
Qed.

Lemma checkout_line_fits ps it it1 :
  checkout_line ps it = Some it1 -> fits_stock ps it1.
Proof.
  intros (pk & p & E & O & ->)%checkout_line_some.
  exists pk, p. split; [done|]. by apply over_stock_false.
Qed.

Lemma update_line_fits ps e it :
  update_line ps e = Some it -> fits_stock ps it.
Proof.
  intros (pk & p & _ & _ & _ & E & O & _)%update_line_some.
  exists pk, p. split; [done|]. by apply over_stock_false.
Qed.

Lemma checkout_success_clears send_mail req s d :
  out_response (checkout send_mail req s d) = Redirect "success" ->
  get_cart (out_session (checkout send_mail req s d)) = [].
Proof.
  unfold checkout.
  destruct (get_cart s) as [|it l]; [done|].
  destruct (checkout_loop _ _ _ _) as [v t| |]; [|done..].
  destruct req as [|[f|]]; [done| |done].
  destruct (commit_stock _ _) as [ps [e|]]; done.
Qed.

Lemma checkout_outcomes send_mail req s d :
  let out := checkout send_mail req s d in
  (exists v t,
     out_response out = RenderCheckout v t /\
     out_db out = d /\
     Forall2 (fun it it1 => checkout_line (products d) it = Some it1)
       (get_cart s) (get_cart (out_session out))) \/
  (out_response out = Redirect "success" /\
   get_cart (out_session out) = [] /\
   exists o,
     orders (out_db out) = orders d ++ [o] /\
     Forall2 (fun it it1 => checkout_line (products d) it = Some it1)
       (get_cart s) (o_items o)) \/
  ((out_response out = Redirect "cart" \/
    exists e, out_response out = ServerError e) /\
   out_session out = s).
Proof.
  cbv zeta. unfold checkout.
  destruct (get_cart s) as [|it l] eqn:Hc.
  { right. right. split; [by left|done]. }
  rewrite <- Hc.
  destruct (checkout_loop _ _ _ _) as [v t|m|e] eqn:Hl.
  - apply checkout_loop_done in Hl as (w & -> & Hw & _).
    destruct req as [|[f|]].
    + left. by eexists _, _.
    + destruct (commit_stock _ _) as [ps [e|]].
      * right. right. split; [right; by eexists|done].
      * right. left. split_and!; [done..|]. by eexists.
    + left. by eexists _, _.
  - right. right. split; [by left|done].
  - right. right. split; [right; by eexists|done].
Qed.

(** C3, as the code has it.  After a cart view that renders, after a
    checkout that renders its page and after an accepted [update_cart],
    every line of the session cart has an active product whose stock, when
    finite, covers the quantity of the line.  A checkout ends in one of
    three ways: it renders its page, with such a cart stored; it commits,
    and no line is left; or it is rejected or raises, in the revalidation
    or in the commit, and the session is as it was before, whatever the
    stocks have become.  An accepted [add_to_cart] checks the line of the
    product the request names, for the quantity the request names, and
    leaves every other line as it was; [remove_from_cart] checks no stock
    and keeps the lines of the other ids as they were. *)
Theorem stock_bound_where_revalidated :
  (forall s d v t,
     out_response (cart_view s d) = RenderCart v t ->
     Forall (fits_stock (products d))
       (get_cart (out_session (cart_view s d)))) /\
  (forall send_mail req s d,
     let out := checkout send_mail req s d in
     (exists v t,
        out_response out = RenderCheckout v t /\
        out_db out = d /\
        Forall (fits_stock (products d)) (get_cart (out_session out))) \/
     (out_response out = Redirect "success" /\
      get_cart (out_session out) = []) \/
     ((out_response out = Redirect "cart" \/
       exists e, out_response out = ServerError e) /\
      out_session out = s)) /\
  (forall body s d n,
     out_response (update_cart body s d) = JsonCart n ->
     out_db (update_cart body s d) = d /\
     Forall (fits_stock (products d))
       (get_cart (out_session (update_cart body s d)))) /\
  (forall body s d n,
     out_response (add_to_cart body s d) = JsonCart n ->
     exists data pid q,
       body = Some data /\
       ad_product_id data = Some pid /\
       default (IntOk 1) (ad_quantity data) = IntOk q /\
       add_effect (products d) pid q (get_cart s)
         (get_cart (out_session (add_to_cart body s d)))) /\
  (forall body s d n,
     out_response (remove_from_cart body s d) = JsonCart n ->
     exists pid,
       body = Some (Some pid) /\
       get_cart (out_session (remove_from_cart body s d)) =
       filter (fun it => line_key it <> py_str pid) (get_cart s)).
Proof.
  split_and!.
  - intros s d v t Hr.
    apply cart_view_render in Hr as (-> & _ & -> & _).
    apply Forall_forall. intros it1 (it & _ & Hs)%list_elem_of_omap.
    apply surviving_some in Hs as (pk & p & E & ->).
    by eapply cart_line_fits.
  - intros send_mail req s d. cbv zeta.
    destruct (checkout_outcomes send_mail req s d)
      as [(v & t & Hr & Hd & Hw)|[(Hr & Hc & _)|Hk]].
    + left. exists v, t. split_and!; [done..|].
      eapply Forall2_Forall_r; [exact Hw|].
      apply Forall_forall. intros it _ it1. apply checkout_line_fits.
    + right. by left.
    + right. by right.
  - intros body s d n Hr.
    apply update_cart_accepted in Hr as (data & _ & -> & Hd).
    split; [done|].
    apply Forall_forall. intros it (e & _ & He)%list_elem_of_omap.
    by eapply update_line_fits.
  - intros body s d n Hr.
    apply add_to_cart_accepted in Hr
      as (data & pid & q & ? & ? & _ & ? & He & _).
    by exists data, pid, q.
  - intros body s d n Hr.
    apply remove_from_cart_accepted in Hr as (pid & ? & -> & _).
    by exists pid.
Qed.

(** ** One line per id, positive quantities *)











(** ** Unavailable products *)




(** ** Cached prices and names *)

(** C6, as the code has it.  The cart view overwrites the price of every
    line it keeps with the current price of its product and leaves the
    cached name as it is.  So does a checkout whose revalidation passes,
    in what it hands on: when it renders its page, the lines it stores in
    the session; when it commits, the lines it writes into the order, the
    session cart being emptied.  A checkout that is rejected or raises,
    in the revalidation or in the commit, leaves the session as it was,
    prices included.  [update_cart] builds every line it stores from the
    product record, name and price.  [add_to_cart] takes name and price
    from the product for a line it appends, and changes only the quantity
    of a line it merges into. *)
Theorem price_refreshed_name_kept :
  (forall s d v t,
     out_response (cart_view s d) = RenderCart v t ->
     forall it1,
       it1 ∈ get_cart (out_session (cart_view s d)) ->
       exists it pk p,
         it ∈ get_cart s /\
         get_product (products d) (i_id it) true = Found pk p /\
         i_id it1 = i_id it /\
         i_price it1 = p_price p /\
         i_name it1 = i_name it) /\
  (forall send_mail req s d,
     let out := checkout send_mail req s d in
     let refreshed it it1 :=
       exists pk p,
         get_product (products d) (i_id it) true = Found pk p /\
         i_id it1 = i_id it /\
         i_price it1 = p_price p /\
         i_name it1 = i_name it in
     (exists v t,
        out_response out = RenderCheckout v t /\
        Forall2 refreshed (get_cart s) (get_cart (out_session out))) \/
     (out_response out = Redirect "success" /\
      get_cart (out_session out) = [] /\
      exists o,
        orders (out_db out) = orders d ++ [o] /\
        Forall2 refreshed (get_cart s) (o_items o)) \/
     ((out_response out = Redirect "cart" \/
       exists e, out_response out = ServerError e) /\
      out_session out = s)) /\
  (forall body s d n,
     out_response (update_cart body s d) = JsonCart n ->
     forall it1,
       it1 ∈ get_cart (out_session (update_cart body s d)) ->
       exists pk p,
         get_product (products d) (i_id it1) true = Found pk p /\
         i_price it1 = p_price p /\
         i_name it1 = p_name p) /\
  (forall body s d n,
     out_response (add_to_cart body s d) = JsonCart n ->
     exists data pid q pk p,
       body = Some data /\
       ad_product_id data = Some pid /\
       default (IntOk 1) (ad_quantity data) = IntOk q /\
       get_product (products d) pid true = Found pk p /\
       ((exists l1 it l2,
           get_cart s = l1 ++ it :: l2 /\
           line_key it = py_str pid /\
           get_cart (out_session (add_to_cart body s d)) =
             l1 ++ set_quantity (i_quantity it + q) it :: l2) \/
        get_cart (out_session (add_to_cart body s d)) =
          get_cart s ++
          [{| i_id := IdInt pk; i_name := p_name p; i_price := p_price p;
              i_image := p_image_url p; i_quantity := q;
              i_current_stock := None |}])).
Proof.
  assert (Hrefresh : forall d (k w : list item),
    Forall2 (fun it it1 => checkout_line (products d) it = Some it1) k w ->
    Forall2 (fun it it1 =>
       exists pk p,
         get_product (products d) (i_id it) true = Found pk p /\
         i_id it1 = i_id it /\
         i_price it1 = p_price p /\
         i_name it1 = i_name it) k w).
  { intros d k w Hw. eapply Forall2_impl; [exact Hw|]. simpl.
    intros it it1 (pk & p & E & _ & ->)%checkout_line_some.
    by exists pk, p. }
  split_and!.
  - intros s d v t Hr it1.
    apply cart_view_render in Hr as (-> & _ & -> & _).
    intros (it & Hin & Hs)%list_elem_of_omap.
    apply surviving_some in Hs as (pk & p & E & ->).
    exists it, pk, p. unfold cart_line.
    by destruct (over_stock p _).
  - intros send_mail req s d. cbv zeta.
    destruct (checkout_outcomes send_mail req s d)
      as [(v & t & Hr & _ & Hw)|[(Hr & Hc & o & Ho & Hw)|Hk]].
    + left. exists v, t. split; [done|]. by apply Hrefresh.
    + right. left. split_and!; [done..|]. exists o. split; [done|].
      by apply Hrefresh.
    + right. by right.
  - intros body s d n Hr it1.
    apply update_cart_accepted in Hr as (data & _ & -> & _).
    intros (e & _ & He)%list_elem_of_omap.
    apply update_line_some in He
      as (pk & p & _ & _ & _ & E & _ & Hn & Hp & _).
    by exists pk, p.
  - intros body s d n Hr.
    apply add_to_cart_accepted in Hr
      as (data & pid & q & ? & ? & _ & ? & (pk & p & E & He) & _).
    exists data, pid, q, pk, p. split_and!; [done..|].
    destruct He as [(l1 & it & l2 & ? & _ & ? & _ & ?)|(_ & _ & ?)].
    + left. by exists l1, it, l2.
    + by right.
Qed.

(** ** Notification failures *)

(** C8. Whether the two mails of a checkout are delivered or raise makes
    no difference to the session, the database, the response, the flash
    messages and the mails attempted.  In particular when the checkout
    commits with a working mail transport it commits with a failing one:
    the row of the order is in the database, the stock is decremented,
    the session cart is cleared and the session holds the id of the new
    order; each failed send leaves a log line and nothing else. *)
Theorem notification_failure_is_not_fatal
    (send_mail : mail -> bool) (req : checkout_request) (s : session)
    (d : db) :
  let out := checkout send_mail req s d in
  let sent := checkout (fun _ => true) req s d in
  out_session out = out_session sent /\
  out_db out = out_db sent /\
  out_response out = out_response sent /\
  out_messages out = out_messages sent /\
  out_mails out = out_mails sent /\
  (out_response sent = Redirect "success" ->
   exists o,
     orders (out_db out) = orders d ++ [order_row o] /\
     (forall pk,
        products (out_db out) !! pk =
        decrement (purchased pk (o_items o)) <$> products d !! pk) /\
     cart (out_session out) = Some [] /\
     cart_count (out_session out) = Some 0 /\
     last_order_id (out_session out) = Some (o_id o) /\
     out_mails out = [AdminOrderMail o; CustomerOrderMail o] /\
     out_log out =
       try_send send_mail (AdminOrderMail o) EmailSendingFailed ++
       try_send send_mail (CustomerOrderMail o) CustomerEmailFailed).
Proof.
  cbv zeta. unfold checkout.
  destruct (get_cart s) as [|it l]; [done|].
  destruct (checkout_loop _ _ _ _) as [v t| |]; [|done..].
  destruct req as [|[f|]]; [done| |done].
  destruct (commit_stock _ _) as [ps [e|]] eqn:Hs; [done|].
  split_and!; try done. intros _. eexists. split_and!; try done.
  simpl. intros pk. by apply commit_stock_done.
Qed.

(** ** Null stock *)






(** ** Newsletter subscription *)

Lemma filter_email_absent (rows : list subscriber) email :
  email ∉ sub_email <$> rows ->
  filter (fun r => sub_email r = email) rows = [].
Proof.
  induction rows as [|r rows IH]; [done|].
  rewrite fmap_cons, not_elem_of_cons. intros [Hne Hnin].
  rewrite filter_cons_False by done. by apply IH.
Qed.

Lemma filter_email_unique (rows : list subscriber) email :
  NoDup (sub_email <$> rows) ->
  email ∈ sub_email <$> rows ->
  exists r, filter (fun r => sub_email r = email) rows = [r].
Proof.
  induction rows as [|r rows IH]; [by intros _ ?%elem_of_nil|].
  rewrite fmap_cons, NoDup_cons. intros [Hr Hn] Hin.
  destruct (decide (sub_email r = email)) as [<-|Hne].
  - exists r. rewrite filter_cons_True by done.
    by rewrite filter_email_absent.
  - rewrite filter_cons_False by done. apply IH; [done|].
    by apply elem_of_cons in Hin as [?|?].
Qed.

Lemma subscribe_known send_mail email s d :
  email <> EmptyString ->
  NoDup (emails d) ->
  email ∈ emails d ->
  subscribe send_mail (Some (Some email)) s d = respond s d JsonSuccess [] [].
Proof.
  intros He Hn Hin. unfold subscribe, get_or_create.
  rewrite bool_decide_eq_false_2 by done.
  by destruct (filter_email_unique _ _ Hn Hin) as (r & ->).
Qed.

Lemma subscribe_new send_mail email s d :
  email <> EmptyString ->
  email ∉ emails d ->
  let o := subscribe send_mail (Some (Some email)) s d in
  out_response o = JsonSuccess /\
  out_db o = with_subscriber email d /\
  out_mails o = [NewSubscriberMail email].
Proof.
  intros He Hnin. cbv zeta. unfold subscribe, get_or_create.
  rewrite bool_decide_eq_false_2 by done.
  by rewrite filter_email_absent.
Qed.

Lemma subscribe_times_known send_mail email n s d :
  email <> EmptyString ->
  NoDup (emails d) ->
  email ∈ emails d ->
  subscribe_times send_mail email n s d =
  (replicate n (JsonSuccess, []), d).
Proof.
  intros He Hn Hin. induction n as [|n IH]; [done|].
  cbn [subscribe_times]. rewrite subscribe_known by done. simpl.
  by rewrite IH.
Qed.

Lemma with_subscriber_emails email d :
  emails (with_subscriber email d) = emails d ++ [email].
Proof. unfold emails, with_subscriber. simpl. by rewrite fmap_app. Qed.

Lemma with_subscriber_NoDup email d :
  NoDup (emails d) -> email ∉ emails d ->
  NoDup (emails (with_subscriber email d)).
Proof.
  intros Hn Hnin. rewrite with_subscriber_emails. apply NoDup_app.
  split_and!; [done| |apply NoDup_singleton].
  intros x Hx ->%list_elem_of_singleton. done.
Qed.

(** C10. An email that is not empty, submitted any number of times in a
    row to a subscriber table without duplicate emails: every submission
    answers success; the table has no duplicate emails afterwards and
    exactly one row of that email; and [send_mail] is called at the first
    submission only, and only when that one created the row. *)
Theorem subscribe_is_idempotent
    (send_mail : mail -> bool) (email : string) (n : nat) (s : session)
    (d : db) :
  email <> EmptyString ->
  NoDup (emails d) ->
  let known := bool_decide (email ∈ emails d) in
  let d1 := if known then d else with_subscriber email d in
  subscribe_times send_mail email (S n) s d =
    ((JsonSuccess, if known then [] else [NewSubscriberMail email])
       :: replicate n (JsonSuccess, []),
     d1) /\
  NoDup (emails d1) /\
  length (records_of email d1) = 1%nat.
Proof.
  intros He Hn. cbv zeta. case_bool_decide as Hin.
  - split_and!; [|done|].
    + by rewrite subscribe_times_known.
    + unfold records_of.
      by destruct (filter_email_unique _ _ Hn Hin) as (r & ->).
  - pose proof (with_subscriber_NoDup _ _ Hn Hin) as Hn1.
    assert (Hin1 : email ∈ emails (with_subscriber email d)).
    { rewrite with_subscriber_emails. apply elem_of_app. right.
      by apply list_elem_of_singleton. }
    split_and!; [|done|].
    + cbn [subscribe_times].
      destruct (subscribe_new send_mail email s d He Hin) as (-> & -> & ->).
      by rewrite subscribe_times_known.
    + unfold records_of.
      by destruct (filter_email_unique _ _ Hn1 Hin1) as (r & ->).
Qed.

End Properties.

(** * Properties of the rest of the store *)

Section StoreProperties.
Context `{PyOps}.

Implicit Types (ps : gmap Z product) (it : item) (p : product).
Implicit Types (s : session) (d : db) (l v w : list item).

(** ** The cart view, once more *)

Lemma cart_line_id p it : i_id (cart_line p it) = i_id it.
Proof. unfold cart_line. by destruct (over_stock p (i_quantity it)). Qed.

Lemma cart_line_within p it :
  over_stock p (i_quantity (cart_line p it)) = false.
Proof.
  unfold cart_line.
  destruct (over_stock p (i_quantity it)) eqn:O; simpl; [|done].
  unfold over_stock in *. destruct (p_stock p) as [st|]; simpl; [|done].
  apply Z.ltb_irrefl.
Qed.

Lemma cart_line_cart_line p it : cart_line p (cart_line p it) = cart_line p it.
Proof.
  unfold cart_line at 1. rewrite cart_line_within.
  unfold cart_line. by destruct (over_stock p (i_quantity it)).
Qed.

Lemma cart_line_settled ps it pk p :
  get_product ps (i_id it) true = Found pk p ->
  surviving ps (cart_line p it) = Some (cart_line p it) /\
  cart_notices ps (cart_line p it) = [].
Proof.
  intros E. unfold surviving, cart_notices.
  by rewrite cart_line_id, E, cart_line_within, cart_line_cart_line.
Qed.

Lemma cart_loop_runs ps l v t ms :
  Forall (fun it => get_product ps (i_id it) true <> Invalid) l ->
  is_Some (cart_loop ps l v t ms).
Proof.
  revert v t ms. induction l as [|it l IH]; intros v t ms Hl; [by eexists|].
  apply Forall_cons in Hl as [Hit Hl]. cbn [cart_loop].
  destruct (get_product ps (i_id it) true); [by apply IH..|done].
Qed.

Lemma omap_settled {A} (f : A -> option A) (k : list A) :
  Forall (fun x => f x = Some x) k -> omap f k = k.
Proof.
  induction 1 as [|x k Hx _ IH]; [done|].
  by rewrite omap_cons_eq, Hx, IH.
Qed.

Lemma bind_silent {A B} (f : A -> list B) (k : list A) :
  Forall (fun x => f x = []) k -> k ≫= f = [].
Proof.
  induction 1 as [|x k Hx _ IH]; [done|]. by rewrite bind_cons, Hx, IH.
Qed.

Lemma surviving_settled ps l :
  Forall (fun it1 => surviving ps it1 = Some it1 /\ cart_notices ps it1 = [])
    (omap (surviving ps) l).
Proof.
  apply Forall_forall. intros it1 (it & _ & Hs)%list_elem_of_omap.
  apply surviving_some in Hs as (pk & p & E & ->).
  by eapply cart_line_settled.
Qed.

(** X1. A cart view that renders leaves the session settled: viewing the
    cart again while the catalog is the same stores the same session,
    renders the same lines and total, and warns of nothing. *)
Theorem cart_view_twice s d v t :
  out_response (cart_view s d) = RenderCart v t ->
  cart_view (out_session (cart_view s d)) d =
  respond (out_session (cart_view s d)) d (RenderCart v t) [] [].
Proof.
  unfold cart_view at 1 3 4.
  destruct (cart_loop _ (get_cart s) _ _ _) as [[[v1 t1] ms]|] eqn:Hl;
    [|done].
  apply cart_loop_some in Hl as (-> & -> & -> & _). simpl.
  intros [= <- <-].
  pose proof (surviving_settled (products d) (get_cart s)) as Hset.
  unfold cart_view, get_cart at 1. simpl.
  destruct (cart_loop_runs (products d) (omap (surviving (products d))
              (get_cart s)) [] float_zero []) as [[[v2 t2] ms2] Hl2].
  { eapply Forall_impl; [exact Hset|]. simpl. intros it1 [Hs _].
    unfold surviving in Hs.
    by destruct (get_product (products d) (i_id it1) true). }
  rewrite Hl2. apply cart_loop_some in Hl2 as (-> & -> & -> & _). simpl.
  rewrite omap_settled, bind_silent; [done|..];
    (eapply Forall_impl; [exact Hset|]); by intros it1 [? ?].
Qed.

(** X2. A line that orders more than the finite stock of its product is
    not dropped by the cart view: it is kept with exactly the stock as its
    quantity, also when the stock is [0], with the current price and the
    stock recorded, and the adjustment is warned of. *)
Theorem cart_view_clamps_to_stock s d v t it pk p st :
  out_response (cart_view s d) = RenderCart v t ->
  it ∈ get_cart s ->
  get_product (products d) (i_id it) true = Found pk p ->
  p_stock p = Some st ->
  st < i_quantity it ->
  set_current_stock (Some st) (set_price (p_price p) (set_quantity st it))
    ∈ get_cart (out_session (cart_view s d)) /\
  MsgWarning (QuantityAdjusted (p_name p)) ∈ out_messages (cart_view s d).
Proof.
  intros Hr Hin E Hst Hlt.
  apply cart_view_render in Hr as (-> & _ & -> & -> & _).
  assert (O : over_stock p (i_quantity it) = true).
  { unfold over_stock. rewrite Hst. lia. }
  split.
  - apply list_elem_of_omap. exists it. split; [done|].
    unfold surviving, cart_line. by rewrite E, O, Hst.
  - apply list_elem_of_bind. exists it. split; [|done].
    unfold cart_notices. rewrite E, O. by apply list_elem_of_singleton.
Qed.

(** ** remove_from_cart *)

Lemma filter_all {A} (P : A -> Prop) `{!forall x, Decision (P x)}
    (k : list A) :
  Forall P k -> filter P k = k.
Proof.
  induction 1 as [|x k Hx _ IH]; [done|].
  by rewrite filter_cons_True, IH.
Qed.

(** X3. An accepted removal leaves no line of the removed id, keeps the
    lines of every other id as they were and in order, and reports the sum
    of their quantities; what it stores does not change when the same
    removal is made again, and a cart without a line of that id is stored
    as it was. *)
Theorem remove_from_cart_removes pid s d :
  id_falsy pid = false ->
  let out := remove_from_cart (Some (Some pid)) s d in
  get_cart (out_session out) =
    filter (fun it => line_key it <> py_str pid) (get_cart s) /\
  Forall (fun it => line_key it <> py_str pid) (get_cart (out_session out)) /\
  out_response out = JsonCart (sum_quantities (get_cart (out_session out))) /\
  cart_count (out_session out) =
    Some (sum_quantities (get_cart (out_session out))) /\
  remove_from_cart (Some (Some pid)) (out_session out) d = out /\
  (Forall (fun it => line_key it <> py_str pid) (get_cart s) ->
   get_cart (out_session out) = get_cart s).
Proof.
  intros Hf. cbv zeta. unfold remove_from_cart. rewrite Hf. simpl.
  split_and!; try done.
  - apply Forall_forall. by intros it (? & _)%list_elem_of_filter.
  - unfold store_cart. cbn [get_cart cart default from_option id].
    by rewrite list_filter_filter_l.
  - intros Hall. cbn [store_cart get_cart cart default from_option id].
    by apply filter_all.
Qed.

(** ** Refused requests *)

(** X4. The JSON views are all or nothing: when [add_to_cart],
    [update_cart] or [remove_from_cart] answers with a failure, the
    session is as it was, and none of them ever writes to the database. *)
Theorem refused_request_changes_nothing :
  (forall body s d,
     out_db (add_to_cart body s d) = d /\
     forall e, out_response (add_to_cart body s d) = JsonFailure e ->
               out_session (add_to_cart body s d) = s) /\
  (forall body s d,
     out_db (update_cart body s d) = d /\
     forall e, out_response (update_cart body s d) = JsonFailure e ->
               out_session (update_cart body s d) = s) /\
  (forall body s d,
     out_db (remove_from_cart body s d) = d /\
     forall e, out_response (remove_from_cart body s d) = JsonFailure e ->
               out_session (remove_from_cart body s d) = s).
Proof.
  split_and!; intros body s d.
  - unfold add_to_cart. destruct body as [data|]; [|done].
    destruct (default _ _) as [q|]; [|done].
    destruct (ad_product_id data) as [pid|]; [|done].
    destruct (id_falsy pid); [done|].
    destruct (get_product _ _ _) as [pk p| |]; [|done..].
    destruct (over_stock p q); [done|].
    destruct (add_loop _ _ _ _); done.
  - unfold update_cart. destruct body as [data|]; [|done].
    destruct (update_loop _ _ _); done.
  - unfold remove_from_cart. destruct body as [[pid|]|]; [|done..].
    destruct (id_falsy pid); done.
Qed.

(** ** update_cart *)

(** X5. [update_cart] replaces the cart: its answer and, when it accepts,
    the cart and the count it stores do not depend on what the session
    held, the count stored is the count answered, and an empty list empties
    the cart. *)
Theorem update_cart_replaces_cart body s1 s2 d :
  out_response (update_cart body s1 d) =
    out_response (update_cart body s2 d) /\
  (forall n,
     out_response (update_cart body s1 d) = JsonCart n ->
     cart (out_session (update_cart body s1 d)) =
       cart (out_session (update_cart body s2 d)) /\
     cart_count (out_session (update_cart body s1 d)) = Some n /\
     last_order_id (out_session (update_cart body s1 d)) =
       last_order_id s1) /\
  (body = Some [] ->
   cart (out_session (update_cart body s1 d)) = Some [] /\
   cart_count (out_session (update_cart body s1 d)) = Some 0).
Proof.
  unfold update_cart. destruct body as [data|]; [|done].
  split_and!.
  - by destruct (update_loop _ _ _).
  - intros n. destruct (update_loop _ _ _); [|done..]. simpl.
    by intros [= <-].
  - by intros [= ->].
Qed.

Lemma update_loop_passed_over ps data v :
  update_loop ps data v =
  update_loop ps (filter (fun e => passed_over e = false) data) v.
Proof.
  revert v. induction data as [|e data IH]; intros v; [done|].
  rewrite filter_cons. unfold passed_over at 1.
  destruct (decide _) as [Hk|Hs]; cbn [update_loop];
    destruct (ue_id e) as [id|]; try done;
    destruct (ue_quantity e) as [[q|]|]; try done.
  - rewrite Hk. destruct (get_product ps id true); [|done..].
    by destruct (over_stock _ _).
  - destruct (q <=? 0); [apply IH|done].
Qed.

(** X6. Entries of an [update_cart] that lack a key or carry a quantity
    that is not positive are passed over before any lookup: the view
    answers and stores exactly what it does for the list without them. *)
Theorem update_cart_passes_over data s d :
  update_cart (Some data) s d =
  update_cart (Some (filter (fun e => passed_over e = false) data)) s d.
Proof. unfold update_cart. by rewrite update_loop_passed_over. Qed.

(** ** add_to_cart *)

Lemma add_effect_sum ps pid q c c1 :
  add_effect ps pid q c c1 -> sum_quantities c1 = sum_quantities c + q.
Proof.
  intros (pk & p & _ & [(l1 & it & l2 & -> & _ & _ & _ & ->)|(_ & _ & ->)]).
  - rewrite !sum_quantities_app. unfold sum_quantities. simpl. lia.
  - rewrite sum_quantities_app. unfold sum_quantities. simpl. lia.
Qed.

Lemma add_to_cart_stored body s d n :
  out_response (add_to_cart body s d) = JsonCart n ->
  cart_count (out_session (add_to_cart body s d)) = Some n /\
  n = sum_quantities (get_cart (out_session (add_to_cart body s d))).
Proof.
  unfold add_to_cart. destruct body as [data|]; [|done].
  destruct (default _ _) as [q|]; [|done].
  destruct (ad_product_id data) as [pid|]; [|done].
  destruct (id_falsy pid); [done|].
  destruct (get_product _ _ _) as [pk p| |]; [|done..].
  destruct (over_stock p q); [done|].
  destruct (add_loop _ _ _ _); [| |done]; simpl; by intros [= <-].
Qed.

(** X7. An accepted [add_to_cart] raises the total quantity of the cart by
    exactly the quantity asked for, [1] when the request names none, and
    answers and stores that total as the count. *)
Theorem add_to_cart_adds_quantity data s d n :
  let out := add_to_cart (Some data) s d in
  out_response out = JsonCart n ->
  exists q,
    default (IntOk 1) (ad_quantity data) = IntOk q /\
    sum_quantities (get_cart (out_session out)) =
      sum_quantities (get_cart s) + q /\
    n = sum_quantities (get_cart s) + q /\
    cart_count (out_session out) = Some n.
Proof.
  cbv zeta. intros Hr.
  destruct (add_to_cart_stored _ _ _ _ Hr) as [Hc ->].
  apply add_to_cart_accepted in Hr
    as (data1 & pid & q & [= <-] & _ & _ & Hq & He & _).
  apply add_effect_sum in He. exists q. by split_and!.
Qed.

(** ** checkout *)

(** X8. The checkout page writes nothing but the revalidated cart: on a
    [GET], and on a [POST] whose form is invalid, the database is as it
    was, no mail is attempted, and the session keeps its count, its last
    order id and the quantities of its lines. *)
Theorem checkout_page_writes_no_order send_mail s d :
  Forall
    (fun req =>
       let out := checkout send_mail req s d in
       out_db out = d /\
       out_mails out = [] /\
       cart_count (out_session out) = cart_count s /\
       last_order_id (out_session out) = last_order_id s /\
       i_quantity <$> get_cart (out_session out) = i_quantity <$> get_cart s)
    [GET; POST None].
Proof.
  assert (Hq : forall w,
    Forall2 (fun it it1 => checkout_line (products d) it = Some it1)
      (get_cart s) w ->
    i_quantity <$> w = i_quantity <$> get_cart s).
  { intros w. induction 1 as [|it it1 l w Hit _ IH]; [done|].
    rewrite !fmap_cons, IH. by rewrite (checkout_line_quantity _ _ _ Hit). }
  apply Forall_cons_2; [|apply Forall_cons_2; [|apply Forall_nil_2]];
    cbv zeta; unfold checkout;
    (destruct (get_cart s) as [|it l] eqn:Hc; [simpl; by rewrite Hc|]);
    rewrite <- Hc in *;
    (destruct (checkout_loop _ _ _ _) as [v t| |] eqn:Hl; [|done..]);
    apply checkout_loop_done in Hl as (w & -> & Hw & _);
    split_and!; try done; by apply Hq.
Qed.

(** X9. Once a checkout has committed, the same session cannot commit
    again: whatever is submitted next to [checkout], the answer is the
    redirect to the cart with the empty-cart error, and neither an order
    nor a mail is added. *)
Theorem checkout_again_commits_nothing send_mail f send_mail2 req s d :
  let out := checkout send_mail (POST (Some f)) s d in
  out_response out = Redirect "success" ->
  checkout send_mail2 req (out_session out) (out_db out) =
  respond (out_session out) (out_db out) (Redirect "cart")
    [MsgError CartIsEmpty] [].
Proof.
  cbv zeta. intros Hc%checkout_success_clears.
  unfold checkout at 1. by rewrite Hc.
Qed.

(** ** success and the methods of an order *)

Lemma next_order_id_above (os : list order) o :
  o ∈ os -> o_id o < next_order_id os.
Proof.
  unfold next_order_id. induction os as [|o1 os IH]; [by intros ?%elem_of_nil|].
  intros [->|Hin]%elem_of_cons; simpl; [lia|]. specialize (IH Hin). lia.
Qed.

Lemma next_order_id_positive (os : list order) : 0 < next_order_id os.
Proof.
  unfold next_order_id. induction os as [|o1 os IH]; simpl; lia.
Qed.

Lemma filter_order_absent (os : list order) n :
  (forall x, x ∈ os -> o_id x <> n) ->
  filter (fun x => o_id x = n) os = [].
Proof.
  induction os as [|x os IH]; intros Hne; [done|].
  rewrite filter_cons_False by (apply Hne; by left).
  apply IH. intros y Hy. apply Hne. by right.
Qed.

Lemma get_order_new (os : list order) o :
  o_id o = next_order_id os ->
  get_order (os ++ [o]) (o_id o) =
  if readable o then OrderFound o else OrderUnreadable.
Proof.
  intros Hid. unfold get_order. rewrite filter_app.
  rewrite filter_order_absent.
  - by rewrite filter_cons_True.
  - intros x Hx%next_order_id_above. lia.
Qed.

Lemma checkout_committed send_mail f s d :
  let out := checkout send_mail (POST (Some f)) s d in
  out_response out = Redirect "success" ->
  exists o,
    orders (out_db out) = orders d ++ [o] /\
    o_id o = next_order_id (orders d) /\
    o_status o = "pending" /\
    last_order_id (out_session out) = Some (o_id o) /\
    Forall2 (fun it it1 => checkout_line (products d) it = Some it1)
      (get_cart s) (o_items o).
Proof.
  cbv zeta. unfold checkout.
  destruct (get_cart s) as [|it l]; [done|].
  destruct (checkout_loop _ _ _ _) as [v t| |] eqn:Hl; [|done..].
  apply checkout_loop_done in Hl as (w & -> & Hw & _). simpl.
  destruct (commit_stock _ _) as [ps [e|]]; [done|].
  intros _. by eexists.
Qed.

(** X10. After a checkout has committed, [success] looks up the order
    that was just placed: the id kept in the session is that of the new
    row, which no earlier row has, so the lookup meets that row and no
    other.  When its decimal columns can be read back the page shows the
    order and warns of nothing; when one cannot, as a total too large for
    the ten digits of its column, the view raises
    [decimal.InvalidOperation]. *)
Theorem success_shows_committed_order send_mail f s d :
  let out := checkout send_mail (POST (Some f)) s d in
  out_response out = Redirect "success" ->
  exists o,
    orders (out_db out) = orders d ++ [o] /\
    last_order_id (out_session out) = Some (o_id o) /\
    success (out_session out) (out_db out) =
      if readable o then SuccessPage (Some o) false
      else SuccessRaised InvalidOperation.
Proof.
  cbv zeta. intros Hr.
  destruct (checkout_committed _ _ _ _ Hr) as (o & Ho & Hid & _ & Hl & _).
  exists o. split_and!; [done..|]. unfold success. rewrite Hl, Ho.
  pose proof (next_order_id_positive (orders d)) as Hpos.
  destruct (o_id o =? 0) eqn:Hz; [lia|].
  rewrite get_order_new by done. by destruct (readable o).
Qed.

(** X11. The order a checkout commits counts, by [get_item_count], as
    many items as the cart that was checked out, which is the count the
    session reported whenever that count was the sum of its cart; and it
    can be cancelled. *)
Theorem committed_order_counts_cart send_mail f s d :
  let out := checkout send_mail (POST (Some f)) s d in
  out_response out = Redirect "success" ->
  exists o,
    orders (out_db out) = orders d ++ [o] /\
    get_item_count o = sum_quantities (get_cart s) /\
    (count_stored s -> get_item_count o = get_cart_count s) /\
    can_be_cancelled o = true.
Proof.
  cbv zeta. intros Hr.
  destruct (checkout_committed _ _ _ _ Hr) as (o & Ho & _ & Hst & _ & Hw).
  exists o. unfold get_item_count, get_items, can_be_cancelled.
  rewrite (checkout_lines_sum _ _ _ Hw), Hst. split_and!; try done.
  intros Hc. by rewrite (count_stored_get _ Hc).
Qed.

(** ** Stocks *)

Lemma commit_stock_valid ps l :
  stocks_valid ps -> stocks_valid (commit_stock ps l).1.
Proof.
  revert ps. induction l as [|it l IH]; intros ps Hv; [done|].
  cbn [commit_stock].
  destruct (get_product ps (i_id it) false) as [k p| |]; [|done..].
  destruct (p_stock p) as [st|] eqn:Hst; [|by apply IH].
  unfold save_product.
  destruct (field_accepts _ _) eqn:Hacc; [|done].
  apply IH. intros pk q. destruct (decide (k = pk)) as [->|Hne].
  - rewrite lookup_insert_eq. by intros [= <-].
  - rewrite lookup_insert_ne by done. apply Hv.
Qed.

(** X12. Checkout never leaves a stock the column refuses: when every
    stock of the catalog is a non-negative integer before a checkout, so
    is every stock after it, whether it committed, was rejected or failed
    half way. *)
Theorem checkout_keeps_stocks_valid send_mail req s d :
  stocks_valid (products d) ->
  stocks_valid (products (out_db (checkout send_mail req s d))).
Proof.
  intros Hv. unfold checkout.
  destruct (get_cart s) as [|it l]; [done|].
  destruct (checkout_loop _ _ _ _) as [v t| |]; [|done..].
  destruct req as [|[f|]]; [done| |done].
  pose proof (commit_stock_valid (products d) v Hv) as Hc.
  simpl. destruct (commit_stock _ _) as [ps [e|]]; done.
Qed.

Lemma lookup_clear_stock selected ps pk :
  clear_stock selected ps !! pk =
  if decide (pk ∈ selected) then set_stock (Some 0) <$> ps !! pk
  else ps !! pk.
Proof.
  induction selected as [|k sel IH]; cbn [clear_stock foldr].
  - by destruct (decide (pk ∈ [])) as [Hin%not_elem_of_nil|].
  - fold (clear_stock sel ps).
    destruct (decide (k = pk)) as [->|Hne].
    + rewrite lookup_alter_eq, IH.
      destruct (decide (pk ∈ pk :: sel)) as [_|Hn]; [|by destruct Hn; left].
      case_decide; [|done]. by destruct (ps !! pk).
    + rewrite lookup_alter_ne, IH by done.
      destruct (decide (pk ∈ sel)) as [Hin|Hin];
        destruct (decide (pk ∈ k :: sel)) as [Hin'|Hin']; try done.
      * by destruct Hin'; right.
      * by apply elem_of_cons in Hin' as [?|?].
Qed.

(** X13. After the admin action [clear_stock], a selected product is out
    of stock, and no positive quantity of it can be added to a cart: the
    request is refused with zero available, and the session is as it was. *)
Theorem cleared_stock_refuses_add selected d pk p q s :
  products d !! pk = Some p ->
  p_is_active p = true ->
  pk ∈ selected ->
  pk <> 0 ->
  0 < q ->
  let d1 := set_products (clear_stock selected (products d)) d in
  products d1 !! pk = Some (set_stock (Some 0) p) /\
  in_stock (set_stock (Some 0) p) = Some false /\
  add_to_cart (add_body pk q) s d1 =
    respond s d1 (JsonFailure (OnlyInStock 0)) [] [].
Proof.
  intros Hp Ha Hin Hz Hq. cbv zeta.
  assert (Hl : clear_stock selected (products d) !! pk =
               Some (set_stock (Some 0) p)).
  { by rewrite lookup_clear_stock, decide_True, Hp. }
  split_and!; [done..|].
  unfold add_to_cart, get_product. simpl.
  rewrite (proj2 (Z.eqb_neq _ _) Hz), Hl. simpl. rewrite Ha. simpl.
  unfold over_stock. simpl.
  by rewrite (proj2 (Z.ltb_lt _ _) Hq).
Qed.

(** ** Subscribers *)

Lemma deactivate_subscribers_emails selected (rows : list subscriber) :
  sub_email <$> deactivate_subscribers selected rows = sub_email <$> rows.
Proof.
  unfold deactivate_subscribers. rewrite <- list_fmap_compose.
  apply list_fmap_ext. intros i r _. simpl. by case_bool_decide.
Qed.

(** X14. Subscribing again does not reactivate: after the admin action
    [deactivate_subscribers] unsubscribed an email, a new submission of
    that email answers success, sends no notification and leaves the
    table as it is, the row of the email still inactive. *)
Theorem resubscribe_stays_inactive send_mail email selected s d :
  email <> EmptyString ->
  NoDup (emails d) ->
  email ∈ emails d ->
  email ∈ selected ->
  let d1 :=
    set_subscribers (deactivate_subscribers selected (subscribers d)) d in
  let out := subscribe send_mail (Some (Some email)) s d1 in
  out_response out = JsonSuccess /\
  out_mails out = [] /\
  out_db out = d1 /\
  length (records_of email (out_db out)) = 1%nat /\
  Forall (fun r => sub_is_active r = false) (records_of email (out_db out)).
Proof.
  intros He Hn Hin Hsel. cbv zeta.
  assert (Hem : emails (set_subscribers
                  (deactivate_subscribers selected (subscribers d)) d)
                = emails d).
  { unfold emails. simpl. apply deactivate_subscribers_emails. }
  rewrite subscribe_known by (rewrite ?Hem; done).
  simpl. split_and!; try done.
  - unfold records_of.
    destruct (filter_email_unique
                (deactivate_subscribers selected (subscribers d)) email)
      as (r & Hr); [by rewrite deactivate_subscribers_emails..|].
    simpl. by rewrite Hr.
  - unfold records_of. simpl. apply Forall_forall.
    intros r (Hre & Hr)%list_elem_of_filter.
    apply list_elem_of_fmap in Hr as (r0 & -> & _).
    case_bool_decide as Hs; [done|].
    simpl in Hre. by rewrite Hre in Hs.
Qed.

End StoreProperties.

(** * Properties of the forms *)

Section FormsProperties.
Context {char : Type} (isdigit isspace : char -> bool).

Implicit Types (t : list char) (c : char).

Lemma lstrip_head t c :
  head (lstrip isspace t) = Some c -> isspace c = false.
Proof.
  induction t as [|a t IH]; [done|]. cbn [lstrip].
  destruct (isspace a) eqn:Ha; [done|]. by intros [= <-].
Qed.

Lemma lstrip_fixed t :
  (forall c, head t = Some c -> isspace c = false) ->
  lstrip isspace t = t.
Proof.
  destruct t as [|a t]; [done|]. intros Hh. cbn [lstrip].
  by rewrite (Hh a eq_refl).
Qed.

Lemma lstrip_suffix t : exists k, t = k ++ lstrip isspace t.
Proof.
  induction t as [|a t [k IH]]; [by exists []|]. cbn [lstrip].
  destruct (isspace a); [|by exists []].
  exists (a :: k). by rewrite <- app_comm_cons, <- IH.
Qed.

Lemma rstrip_prefix t : exists k, t = rstrip isspace t ++ k.
Proof.
  destruct (lstrip_suffix (reverse t)) as [k Hk]. exists (reverse k).
  unfold rstrip. by rewrite <- reverse_app, <- Hk, reverse_involutive.
Qed.

Lemma rstrip_last t c :
  last (rstrip isspace t) = Some c -> isspace c = false.
Proof. unfold rstrip. rewrite last_reverse. apply lstrip_head. Qed.

Lemma rstrip_fixed t :
  (forall c, last t = Some c -> isspace c = false) ->
  rstrip isspace t = t.
Proof.
  intros Hl. unfold rstrip. rewrite lstrip_fixed.
  - apply reverse_involutive.
  - intros c. rewrite head_reverse. apply Hl.
Qed.

Lemma strip_trimmed t : trimmed isspace (strip isspace t).
Proof.
  split; intros c Hc; [|by eapply rstrip_last].
  apply (lstrip_head t). unfold strip in Hc.
  destruct (rstrip_prefix (lstrip isspace t)) as [k Hk].
  destruct (rstrip isspace (lstrip isspace t)) as [|a u]; [done|].
  by rewrite Hk.
Qed.

Lemma strip_fixed t : trimmed isspace t -> strip isspace t = t.
Proof.
  intros [Hh Hl]. unfold strip. by rewrite lstrip_fixed, rstrip_fixed.
Qed.

Lemma strip_strip t : strip isspace (strip isspace t) = strip isspace t.
Proof. apply strip_fixed, strip_trimmed. Qed.

Lemma strip_sublist t : strip isspace t `sublist_of` t.
Proof.
  unfold strip.
  destruct (rstrip_prefix (lstrip isspace t)) as [k Hk].
  destruct (lstrip_suffix t) as [k1 Hk1].
  rewrite Hk1 at 2. rewrite Hk at 2.
  apply sublist_inserts_l, sublist_inserts_r. done.
Qed.

(** X15. A phone number that [OrderForm.clean_phone] accepts is the digits
    of what was typed, in order: at least ten characters, every one a
    digit, no more than were typed; cleaning it again returns it as it
    is, and so does cleaning a text of ten or more digits only. *)
Theorem clean_phone_keeps_digits phone out :
  clean_phone isdigit phone = inr out ->
  Forall (fun c => isdigit c = true) out /\
  out `sublist_of` phone /\
  (10 <= length out <= length phone)%nat /\
  clean_phone isdigit out = inr out /\
  (Forall (fun c => isdigit c = true) phone -> out = phone).
Proof.
  unfold clean_phone.
  destruct (_ <? _)%nat eqn:Hlen; [done|]. intros [= <-].
  apply Nat.ltb_ge in Hlen.
  assert (Hd : Forall (fun c => isdigit c = true)
                 (filter (fun c => isdigit c = true) phone)).
  { apply Forall_forall. by intros c [? _]%list_elem_of_filter. }
  split_and!; try done.
  - apply sublist_filter.
  - apply length_filter.
  - rewrite (filter_all _ _ Hd).
    by rewrite (proj2 (Nat.ltb_ge _ _) Hlen).
  - apply filter_all.
Qed.

(** X16. What [OrderForm.clean_address], [ContactForm.clean_name] and
    [ContactForm.clean_message] accept is returned without the white space
    around it: the result neither starts nor ends with white space, has
    the least length the method asks for without counting that white
    space, and is returned as it is when cleaned again. *)
Theorem cleaned_text_is_trimmed t out :
  (clean_address isspace t = inr out ->
   trimmed isspace out /\ (10 <= length out)%nat /\
   out `sublist_of` t /\ clean_address isspace out = inr out) /\
  (clean_name isspace t = inr out ->
   trimmed isspace out /\ (2 <= length out)%nat /\
   out `sublist_of` t /\ clean_name isspace out = inr out) /\
  (clean_message isspace t = inr out ->
   trimmed isspace out /\ (10 <= length out)%nat /\
   out `sublist_of` t /\ clean_message isspace out = inr out).
Proof.
  unfold clean_address, clean_name, clean_message.
  split_and!;
    (destruct (_ <? _)%nat eqn:Hlen; [done|]); intros [= <-];
    rewrite strip_strip, Hlen; apply Nat.ltb_ge in Hlen;
    split_and!; auto using strip_trimmed, strip_sublist.
Qed.

End FormsProperties.

(** X17. [ProductFilterForm.clean] compares the two prices only when both
    are given and neither is zero: a minimum above the maximum is refused
    then, and is accepted whenever one of the two is zero or absent. *)
Theorem price_filter_skips_zero_bound :
  (forall lo hi,
     filter_clean (Some lo) (Some hi) = Some MinAboveMax <->
     hi < lo /\ lo <> 0 /\ hi <> 0) /\
  (forall lo, filter_clean (Some lo) (Some 0) = None) /\
  (forall hi, filter_clean (Some 0) (Some hi) = None) /\
  (forall v, filter_clean None v = None /\ filter_clean v None = None).
Proof.
  unfold filter_clean, decimal_truthy. split_and!.
  - intros lo hi.
    destruct (Z.eqb_spec lo 0), (Z.eqb_spec hi 0), (Z.ltb_spec hi lo);
      simpl; split; try done; try lia; by intros (? & ? & ?).
  - intros lo. simpl. by rewrite andb_false_r.
  - done.
  - intros [v|]; [|done]. simpl. split; [done|].
    by rewrite andb_false_r.
Qed.

(** * Properties of products and reviews *)

Section CatalogProperties.
Context `{PyOps}.
Context (category_prefix : string -> string).
Context {rating : Type} (round_avg : list Z -> rating).

Implicit Types (rows : list (@product_row rating)).
Implicit Types (p q : @product_row rating).
Implicit Types (c : @catalog rating) (r : review) (rs : list review).
Implicit Types (selected : list Z).

Lemma next_id_above (ids : list (option Z)) k :
  Some k ∈ ids -> k < next_id ids.
Proof.
  unfold next_id. induction ids as [|a ids IH]; [by intros ?%elem_of_nil|].
  intros [<-|Hin]%elem_of_cons; simpl; [lia|]. specialize (IH Hin). lia.
Qed.

Lemma next_id_fresh (ids : list (option Z)) : Some (next_id ids) ∉ ids.
Proof. intros Hin%next_id_above. lia. Qed.

Lemma write_row_new rows p :
  pr_id p ∉ pr_id <$> rows -> write_row rows p = rows ++ [p].
Proof. intros Hn. unfold write_row. by rewrite bool_decide_eq_false_2. Qed.

Lemma write_row_known rows p q :
  pr_id p ∈ pr_id <$> rows ->
  q ∈ write_row rows p -> pr_id q = pr_id p -> q = p.
Proof.
  intros Hin. unfold write_row. rewrite bool_decide_eq_true_2 by done.
  intros (q0 & -> & _)%list_elem_of_fmap. by case_bool_decide.
Qed.

(** X18. The sku [Product.save] makes up for a new product never carries
    its key: it is the prefix of the category followed by [-NEW].  So
    once a new product was saved without an sku, saving a second new
    product of a category with the same prefix, again without an sku, is
    refused by the unique sku. *)
Theorem new_products_collide_on_generated_sku rows p q p1 rows1 :
  pr_id p = None ->
  pr_id q = None ->
  sku_falsy (pr_sku p) = true ->
  sku_falsy (pr_sku q) = true ->
  category_prefix (pr_category p) = category_prefix (pr_category q) ->
  Product_save category_prefix rows p = inr (p1, rows1) ->
  pr_sku p1 = Some (category_prefix (pr_category p) +:+ "-NEW") /\
  rows1 = rows ++ [p1] /\
  Product_save category_prefix rows1 q = inl IntegrityError.
Proof.
  intros Hp Hq Hsp Hsq Hcat. unfold Product_save. rewrite Hsp, Hsq.
  cbn [pr_id set_sku]. rewrite Hp, Hq.
  case_bool_decide as Ht; [done|]. intros [= <- <-].
  pose proof (next_id_fresh (pr_id <$> rows)) as Hfresh.
  rewrite write_row_new by done.
  split_and!; [by unfold generated_sku; rewrite Hp|done|].
  rewrite bool_decide_eq_true_2; [done|].
  apply Exists_exists. eexists. split; [apply elem_of_app; right; by left|].
  cbn [pr_id pr_sku set_id set_sku]. split_and!.
  - match goal with
    | |- Some ?k <> Some (next_id ?ids) =>
        assert (Hlt : k < next_id ids); [|intros [= Heq]; lia]
    end.
    apply next_id_above. rewrite fmap_app. apply elem_of_app. right.
    by left.
  - by eexists.
  - unfold generated_sku. cbn [pr_category pr_id set_sku].
    by rewrite Hp, Hq, Hcat.
Qed.

(** ** Reviews *)

Lemma write_review_elem rs r : r ∈ write_review rs r.
Proof.
  unfold write_review. case_bool_decide as Hin.
  - apply list_elem_of_fmap in Hin as (x & Hx & Hin).
    apply list_elem_of_fmap. exists x. split; [|done].
    by rewrite bool_decide_eq_true_2.
  - apply elem_of_app. right. by left.
Qed.

Lemma update_product_rating_counts c r c1 :
  r ∈ reviews c ->
  rv_is_approved r = true ->
  update_product_rating category_prefix round_avg c r = (c1, None) ->
  reviews c1 = reviews c /\
  (exists p, p ∈ product_rows c1 /\ pr_id p = Some (rv_product r)) /\
  forall p, p ∈ product_rows c1 -> pr_id p = Some (rv_product r) ->
    pr_review_count p =
      Z.of_nat (length (approved_reviews (rv_product r) (reviews c))) /\
    pr_rating p =
      round_avg (rv_rating <$> approved_reviews (rv_product r) (reviews c)).
Proof.
  intros Hin Ha. unfold update_product_rating.
  destruct (approved_reviews _ _) as [|a l] eqn:Hap.
  { assert (Hr : r ∈ approved_reviews (rv_product r) (reviews c)).
    { by apply list_elem_of_filter. }
    rewrite Hap in Hr. by apply elem_of_nil in Hr. }
  destruct (filter _ (product_rows c)) as [|p0 ps] eqn:Hf; [done|].
  assert (Hp0 : p0 ∈ product_rows c /\ pr_id p0 = Some (rv_product r)).
  { assert (Hp : p0 ∈ filter (fun p => pr_id p = Some (rv_product r))
                         (product_rows c)) by (rewrite Hf; by left).
    by apply list_elem_of_filter in Hp as [? ?]. }
  destruct Hp0 as [Hp0 Hid].
  unfold Product_save.
  set (p1 := if sku_falsy _ then _ else _).
  assert (Hid1 : pr_id p1 = Some (rv_product r)).
  { subst p1. by destruct (sku_falsy _). }
  assert (Hc1 : pr_review_count p1 = Z.of_nat (length (a :: l)) /\
                pr_rating p1 = round_avg (rv_rating <$> a :: l)).
  { subst p1. by destruct (sku_falsy _). }
  rewrite Hid1. case_bool_decide; [done|]. intros [= <-].
  assert (Hk : pr_id p1 ∈ pr_id <$> product_rows c).
  { rewrite Hid1, <- Hid. by apply list_elem_of_fmap_2. }
  split_and!; [done| |].
  - exists p1. split; [|done]. cbn [product_rows set_product_rows].
    unfold write_row. rewrite bool_decide_eq_true_2 by done.
    apply list_elem_of_fmap. exists p0. split; [|done].
    rewrite bool_decide_eq_true_2; [done|congruence].
  - intros p Hp Hpid. cbn [product_rows set_product_rows] in Hp.
    apply (write_row_known _ _ _ Hk) in Hp; [|congruence].
    by subst p.
Qed.

(** X19. When [ProductReview.save] of an approved review succeeds, the
    product of the review has a row, and every row of it carries the
    number of its approved reviews as they now stand, the saved one among
    them, and the rounded average of their ratings. *)
Theorem approved_review_is_counted c r c1 :
  rv_is_approved r = true ->
  ProductReview_save category_prefix round_avg c r = (c1, None) ->
  counts_agree (rv_product r) c1 /\
  0 < Z.of_nat (length (approved_reviews (rv_product r) (reviews c1))) /\
  (exists p, p ∈ product_rows c1 /\ pr_id p = Some (rv_product r)) /\
  forall p, p ∈ product_rows c1 -> pr_id p = Some (rv_product r) ->
    pr_rating p =
      round_avg (rv_rating <$> approved_reviews (rv_product r) (reviews c1)).
Proof.
  intros Ha. unfold ProductReview_save.
  case_bool_decide; [done|]. case_bool_decide; [|done]. cbv zeta.
  set (r1 := match rv_id r with Some _ => r | None => _ end).
  assert (Hr1 : rv_is_approved r1 = true /\ rv_product r1 = rv_product r).
  { subst r1. by destruct (rv_id r). }
  destruct Hr1 as [Ha1 Hp1]. rewrite Ha1.
  set (c0 := set_reviews _ c).
  assert (Hin : r1 ∈ reviews c0) by apply write_review_elem.
  intros Hu.
  apply (update_product_rating_counts c0 r1 c1 Hin Ha1) in Hu
    as (Hrs & Hex & Hall).
  rewrite Hp1 in *. rewrite Hrs. split_and!.
  - intros p Hp Hid. rewrite Hrs. by apply Hall.
  - assert (Hr : r1 ∈ approved_reviews (rv_product r) (reviews c0)).
    { by apply list_elem_of_filter. }
    destruct (approved_reviews _ _); [by apply elem_of_nil in Hr|].
    simpl. lia.
  - done.
  - intros p Hp Hid. by apply Hall.
Qed.

Lemma approved_after_mark pk selected rs :
  let marked :=
    (fun r => if bool_decide (rv_id r ∈ Some <$> selected)
              then set_approved false r else r) <$> rs in
  (length (approved_reviews pk marked) <= length (approved_reviews pk rs))%nat
  /\
  forall r k, r ∈ rs -> rv_product r = pk -> rv_is_approved r = true ->
    rv_id r = Some k -> k ∈ selected ->
    (length (approved_reviews pk marked) <
     length (approved_reviews pk rs))%nat.
Proof.
  cbv zeta. unfold approved_reviews.
  induction rs as [|x rs [IH1 IH2]]; [split; [done|by intros ? ? ?%elem_of_nil]|].
  rewrite fmap_cons.
  assert (Hx : forall b : bool,
    (length (filter (fun r => rv_product r = pk /\ rv_is_approved r = true)
       ((if b then set_approved false x else x) ::
        ((fun r => if bool_decide (rv_id r ∈ Some <$> selected)
                   then set_approved false r else r) <$> rs)))
     <= length (filter (fun r => rv_product r = pk /\
                                 rv_is_approved r = true) (x :: rs)))%nat).
  { intros b. rewrite !filter_cons.
    destruct b; repeat case_decide; simpl in *; try lia; naive_solver. }
  split; [apply Hx|].
  intros r k [->|Hin]%elem_of_cons Hpk Ha Hid Hsel.
  - rewrite bool_decide_eq_true_2
      by (rewrite Hid; by apply list_elem_of_fmap_2).
    rewrite filter_cons_False by (simpl; by intros [_ ?]).
    rewrite filter_cons_True by done. simpl. lia.
  - specialize (IH2 r k Hin Hpk Ha Hid Hsel).
    rewrite !filter_cons.
    destruct (bool_decide _); repeat case_decide; simpl in *;
      try lia; naive_solver.
Qed.

(** X20. Withdrawing an approval does not reach the product.  Neither
    [disapprove_reviews] nor the save of a review that is not approved
    writes a product row; so where the count of a product was the number
    of its approved reviews and one of those is disapproved in the admin,
    the product goes on counting more reviews than are approved. *)
Theorem disapproved_reviews_stay_counted selected c r k p :
  counts_agree (rv_product r) c ->
  r ∈ reviews c ->
  rv_is_approved r = true ->
  rv_id r = Some k ->
  k ∈ selected ->
  p ∈ product_rows c ->
  pr_id p = Some (rv_product r) ->
  let c1 := disapprove_reviews selected c in
  product_rows c1 = product_rows c /\
  Z.of_nat (length (approved_reviews (rv_product r) (reviews c1)))
    < pr_review_count p /\
  ~ counts_agree (rv_product r) c1 /\
  forall r0, rv_is_approved r0 = false ->
    product_rows (ProductReview_save category_prefix round_avg c r0).1 =
    product_rows c.
Proof.
  intros Hagree Hin Ha Hid Hsel Hp Hpid. cbv zeta.
  destruct (approved_after_mark (rv_product r) selected (reviews c))
    as [_ Hlt].
  specialize (Hlt r k Hin eq_refl Ha Hid Hsel).
  assert (Hstale :
    Z.of_nat (length (approved_reviews (rv_product r)
                (reviews (disapprove_reviews selected c))))
    < pr_review_count p).
  { rewrite (Hagree p Hp Hpid). apply inj_lt, Hlt. }
  split_and!; [done|done| |].
  - intros Hagree1. specialize (Hagree1 p Hp Hpid). lia.
  - intros r0 Hr0. unfold ProductReview_save.
    case_bool_decide; [done|]. case_bool_decide; [|done]. cbv zeta.
    replace (rv_is_approved _) with false; [done|].
    by destruct (rv_id r0).
Qed.

End CatalogProperties.

(** * Sample runs *)

#[local] Existing Instance exact_ops.

(** ** Checkout commit *)



Example checkout_commit_sample_stock :
  let out := checkout delivers (POST (Some customer)) shirts_and_cap shop in
  p_stock <$> products (out_db out) !! 1 = Some (Some 2) /\
  p_stock <$> products (out_db out) !! 2 = Some (Some 9) /\
  o_total <$> orders (out_db out) = [3 * 1999 + 500].
Proof. cbv zeta. split_and!; reflexivity. Qed.

(** C2 fails on the code: the shirt, of which five are left, stands on
    two lines of three each; both lines pass the revalidation, the order
    is saved, the first decrement leaves two, and the second is refused.
    The order and the first decrement stay. *)
Lemma checkout_commit_failure_not_rolled_back :
  let out := checkout delivers (POST (Some customer)) shirt_twice shop in
  out_response out = ServerError IntegrityError /\
  orders shop = [] /\
  (exists o, orders (out_db out) = [o]) /\
  p_stock <$> products shop !! 1 = Some (Some 5) /\
  p_stock <$> products (out_db out) !! 1 = Some (Some 2) /\
  out_db out <> shop.
Proof.
  cbv zeta. split_and!; try reflexivity.
  - eexists. reflexivity.
  - intros Heq. apply (f_equal (fun x => length (orders x))) in Heq.
    change (1%nat = 0%nat) in Heq. discriminate Heq.
Qed.

(** C2, as the code has it, on the same data. *)
Lemma checkout_commit_failure_sample :
  let out := checkout delivers (POST (Some customer)) shirt_twice shop in
  out_response out = ServerError IntegrityError /\
  out_session out = shirt_twice /\
  out_mails out = [] /\
  exists o, orders (out_db out) = orders shop ++ [o].
Proof.
  cbv zeta. split; [reflexivity|].
  destruct (checkout_commit_failure_keeps_order
              delivers customer shirt_twice shop eq_refl)
    as (Hs & Hm & v & o & served & it & rest & _ & Ho & _).
  split_and!; [assumption..|]. exists o. assumption.
Defined.

(** ** Stock bound *)

(** C3 fails on the code: seven of product 1 and a cap were put in the
    cart while ten were in stock; five are left now.  Removing the cap is
    accepted and leaves the line of seven in the session cart. *)
Lemma remove_from_cart_keeps_line_over_stock :
  let out := remove_from_cart (Some (Some (IdInt 2))) seven_and_cap shop in
  out_response out = JsonCart 7 /\
  exists it,
    get_cart (out_session out) = [it] /\
    get_product (products shop) (i_id it) true = Found 1 shirt /\
    p_stock shirt = Some 5 /\
    i_quantity it = 7 /\
    ~ fits_stock (products shop) it.
Proof.
  cbv zeta. split; [reflexivity|]. eexists. split; [reflexivity|].
  split_and!; try reflexivity.
  intros (pk & p & Hf & Hle). change (Found 1 shirt = Found pk p) in Hf.
  injection Hf as <- <-. specialize (Hle 5 eq_refl). simpl in Hle. lia.
Qed.

(** C3, as the code has it, on the same cart: the cart view clamps the
    line of seven to the five in stock. *)
Lemma cart_view_clamps_sample :
  out_response (cart_view seven_and_cap shop) =
    RenderCart (get_cart (out_session (cart_view seven_and_cap shop)))
      (5 * 1999 + 500) /\
  i_quantity <$> get_cart (out_session (cart_view seven_and_cap shop))
    = [5; 1] /\
  out_messages (cart_view seven_and_cap shop) =
    [MsgWarning (QuantityAdjusted "Shirt")] /\
  Forall (fits_stock (products shop))
    (get_cart (out_session (cart_view seven_and_cap shop))).
Proof.
  split_and!; [reflexivity..|].
  exact (proj1 stock_bound_where_revalidated seven_and_cap shop _ _ eq_refl).
Defined.

(** After the commit that fails half way, the shirt standing on two
    lines of three: the session is as it was, two shirts are left, and
    both lines order three. *)
Example checkout_commit_failure_leaves_lines_over_stock :
  let out := checkout delivers (POST (Some customer)) shirt_twice shop in
  out_response out = ServerError IntegrityError /\
  out_session out = shirt_twice /\
  p_stock <$> products (out_db out) !! 1 = Some (Some 2) /\
  i_quantity <$> get_cart (out_session out) = [3; 3] /\
  i_price <$> get_cart (out_session out) = [1999; 1999].
Proof. cbv zeta. split_and!; reflexivity. Qed.

Example checkout_rejects_over_stock :
  let out := checkout delivers (POST (Some customer)) seven_and_cap shop in
  out_response out = Redirect "cart" /\
  out_messages out = [MsgError (OnlyAvailable 5 "Shirt")] /\
  out_session out = seven_and_cap /\
  out_db out = shop.
Proof. cbv zeta. split_and!; reflexivity. Qed.

(** ** One line per id *)



(** A line stored by [update_cart] under the id "01", then one shirt
    added under its key [1]: the texts differ, a second line is appended,
    and the cart has two lines of the shirt with two different ids. *)
Example add_to_cart_beside_noncanonical_line :
  let s1 :=
    out_session
      (update_cart
         (Some [{| ue_id := Some (IdStr "01");
                   ue_quantity := Some (IntOk 1) |}])
         empty_session shop) in
  let out := add_to_cart (add_body 1 1) s1 shop in
  out_response out = JsonCart 2 /\
  i_id <$> get_cart (out_session out) = [IdStr "01"; IdInt 1] /\
  line_products (get_cart (out_session out)) = [1; 1] /\
  ~ canonical_lines (get_cart s1).
Proof.
  cbv zeta. split_and!; try reflexivity.
  intros Hc. apply Forall_cons in Hc as [Hc _].
  specialize (Hc 1 eq_refl). discriminate Hc.
Qed.

(** An id that is not in canonical form: the string "02" is coerced to the
    cap's key [2] but does not compare equal to [str(2)], so a second line
    of caps is appended. *)
Example add_to_cart_string_id_not_merged :
  i_id <$> get_cart (out_session
    (add_to_cart
       (Some {| ad_product_id := Some (IdStr "02"); ad_quantity := None |})
       shirts_and_cap shop))
  = [IdInt 1; IdInt 2; IdInt 2].
Proof. reflexivity. Qed.

(** ** Unavailable products *)



(** ** Cached prices and names *)

(** C6 fails on the code: product 1 was put in the cart as "Tee" and is
    called "Shirt" now.  The cart view refreshes the price of the line and
    keeps the name "Tee". *)
Lemma cart_view_keeps_cached_name :
  let out := cart_view two_tees shop in
  exists it,
    get_cart (out_session out) = [it] /\
    get_product (products shop) (i_id it) true = Found 1 shirt /\
    i_price it = p_price shirt /\
    i_name it = "Tee" /\
    i_name it <> p_name shirt.
Proof.
  cbv zeta. eexists. split; [reflexivity|].
  split_and!; try reflexivity. discriminate.
Qed.

(** C6, as the code has it, on the same cart: after a checkout page the
    line has the current price and the name it had. *)
Lemma checkout_refreshes_price_sample :
  let out := checkout delivers GET two_tees shop in
  out_response out = RenderCheckout (get_cart (out_session out)) (2 * 1999) /\
  Forall2
    (fun it it1 =>
       exists pk p,
         get_product (products shop) (i_id it) true = Found pk p /\
         i_id it1 = i_id it /\
         i_price it1 = p_price p /\
         i_name it1 = i_name it)
    (get_cart two_tees) (get_cart (out_session out)).
Proof.
  cbv zeta. split; [reflexivity|].
  destruct (proj1 (proj2 price_refreshed_name_kept) delivers GET two_tees
              shop)
    as [(v & t & _ & Hw)|[(Hr & _)|([Hr|(e & Hr)] & _)]];
    [exact Hw|discriminate Hr..].
Defined.

(** ** Notification failures *)

Example checkout_with_failing_mail :
  let out := checkout bounces (POST (Some customer)) shirts_and_cap shop in
  out_response out = Redirect "success" /\
  out_log out = [EmailSendingFailed; CustomerEmailFailed] /\
  length (orders (out_db out)) = 1%nat /\
  p_stock <$> products (out_db out) !! 1 = Some (Some 2) /\
  out_session out =
    {| cart := Some []; cart_count := Some 0; last_order_id := Some 1 |}.
Proof. cbv zeta. split_and!; reflexivity. Qed.

(** ** Null stock *)



(** ** Newsletter subscription *)

(** C10, on sample data: one email submitted three times to an empty
    table, with a mail transport that fails. *)
Lemma subscribe_three_times_sample :
  subscribe_times bounces "ada@example.com" 3 empty_session shop =
    ([(JsonSuccess, [NewSubscriberMail "ada@example.com"]);
      (JsonSuccess, []); (JsonSuccess, [])],
     with_subscriber "ada@example.com" shop) /\
  length (records_of "ada@example.com"
            (with_subscriber "ada@example.com" shop)) = 1%nat.
Proof.
  assert (He : "ada@example.com" <> EmptyString) by discriminate.
  assert (Hn : NoDup (emails shop)) by apply NoDup_nil_2.
  destruct (subscribe_is_idempotent bounces "ada@example.com" 2
              empty_session shop He Hn) as (Ht & _ & Hl).
  split; [exact Ht|exact Hl].
Defined.

(** ** The rest of the store *)

(** X1, on sample data: the cart of seven and a cap, once viewed, is
    viewed again without a warning. *)
Lemma cart_view_twice_sample :
  let s1 := out_session (cart_view seven_and_cap shop) in
  out_messages (cart_view seven_and_cap shop) =
    [MsgWarning (QuantityAdjusted "Shirt")] /\
  cart_view s1 shop =
    respond s1 shop (RenderCart (get_cart s1) (5 * 1999 + 500)) [] [].
Proof.
  cbv zeta. split; [reflexivity|].
  exact (cart_view_twice seven_and_cap shop _ _ eq_refl).
Defined.

(** X2, on the same cart: the line of seven is kept with the five in
    stock. *)
Lemma cart_view_clamps_to_stock_sample :
  set_current_stock (Some 5) (set_price 1999 (set_quantity 5 (line 1 tee 7)))
    ∈ get_cart (out_session (cart_view seven_and_cap shop)) /\
  MsgWarning (QuantityAdjusted "Shirt")
    ∈ out_messages (cart_view seven_and_cap shop).
Proof.
  refine (cart_view_clamps_to_stock seven_and_cap shop _ _ (line 1 tee 7)
            1 shirt 5 eq_refl _ eq_refl eq_refl _).
  - by left.
  - simpl. lia.
Defined.

(** X3, on sample data: the cap is removed from three shirts and a cap. *)
Lemma remove_from_cart_removes_sample :
  let out := remove_from_cart (Some (Some (IdInt 2))) shirts_and_cap shop in
  get_cart (out_session out) = [line 1 shirt 3] /\
  out_response out = JsonCart 3 /\
  remove_from_cart (Some (Some (IdInt 2))) (out_session out) shop = out.
Proof.
  cbv zeta.
  destruct (remove_from_cart_removes (IdInt 2) shirts_and_cap shop eq_refl)
    as (_ & _ & _ & _ & Hagain & _).
  split_and!; [reflexivity..|exact Hagain].
Defined.

(** X7, on sample data: two more shirts are added to three shirts and a
    cap. *)
Lemma add_to_cart_adds_quantity_sample :
  let out := add_to_cart (add_body 1 2) shirts_and_cap shop in
  out_response out = JsonCart 6 /\
  exists q,
    sum_quantities (get_cart (out_session out)) =
      sum_quantities (get_cart shirts_and_cap) + q /\
    cart_count (out_session out) = Some 6.
Proof.
  cbv zeta. split; [reflexivity|].
  destruct (add_to_cart_adds_quantity
              {| ad_product_id := Some (IdInt 1);
                 ad_quantity := Some (IntOk 2) |}
              shirts_and_cap shop 6 eq_refl) as (q & _ & Hs & _ & Hc).
  exists q. split; [exact Hs|exact Hc].
Defined.

(** X9, on sample data: after three shirts and a cap are ordered, the
    form submitted again is answered with the empty-cart error. *)
Lemma checkout_again_sample :
  let out := checkout delivers (POST (Some customer)) shirts_and_cap shop in
  out_response out = Redirect "success" /\
  checkout delivers (POST (Some customer)) (out_session out) (out_db out) =
    respond (out_session out) (out_db out) (Redirect "cart")
      [MsgError CartIsEmpty] [].
Proof.
  cbv zeta. split; [reflexivity|].
  exact (checkout_again_commits_nothing delivers customer delivers
           (POST (Some customer)) shirts_and_cap shop eq_refl).
Defined.

(** X10, on the same order: its columns can be read back, and the page
    shows it. *)
Lemma success_shows_order_sample :
  let out := checkout delivers (POST (Some customer)) shirts_and_cap shop in
  exists o,
    orders (out_db out) = [o] /\
    readable o = true /\
    success (out_session out) (out_db out) = SuccessPage (Some o) false.
Proof.
  cbv zeta.
  destruct (success_shows_committed_order delivers customer shirts_and_cap
              shop eq_refl) as (o & Ho & _ & Hs).
  change ([order_row (new_order 1 customer (get_cart shirts_and_cap)
                        (3 * 1999 + 500))] = [o]) in Ho.
  injection Ho as <-. eexists. split_and!; [reflexivity..|exact Hs].
Defined.

(** Two villas are ordered: the total of 199999999.98 is kept as
    200000000, which the ten digits of the column cannot give back with
    two places, and the success page raises. *)
Example success_raises_on_large_total :
  let out := checkout delivers (POST (Some customer)) two_villas estate in
  out_response out = Redirect "success" /\
  o_total <$> orders (out_db out) = [20000000000] /\
  success (out_session out) (out_db out) = SuccessRaised InvalidOperation.
Proof. cbv zeta. split_and!; reflexivity. Qed.

(** X11, on the same order: four items. *)
Lemma committed_order_counts_sample :
  let out := checkout delivers (POST (Some customer)) shirts_and_cap shop in
  get_cart_count shirts_and_cap = 4 /\
  exists o,
    orders (out_db out) = orders shop ++ [o] /\
    get_item_count o = sum_quantities (get_cart shirts_and_cap) /\
    can_be_cancelled o = true.
Proof.
  cbv zeta. split; [reflexivity|].
  destruct (committed_order_counts_cart delivers customer shirts_and_cap shop
              eq_refl) as (o & Ho & Hn & _ & Hc).
  exists o. split_and!; assumption.
Defined.

Lemma shop_stocks_valid : stocks_valid (products shop).
Proof.
  intros pk p Hp. simpl in Hp.
  repeat (apply lookup_insert_Some in Hp as [[_ <-]|[_ Hp]]; [reflexivity|]).
  by rewrite lookup_empty in Hp.
Qed.

(** X12, on sample data: the checkout that fails half way, the shirt
    standing on two lines, leaves stocks the column accepts. *)
Lemma checkout_keeps_stocks_valid_sample :
  stocks_valid (products shop) /\
  stocks_valid
    (products (out_db
       (checkout delivers (POST (Some customer)) shirt_twice shop))).
Proof.
  split; [exact shop_stocks_valid|].
  exact (checkout_keeps_stocks_valid delivers (POST (Some customer))
           shirt_twice shop shop_stocks_valid).
Defined.

(** X13, on sample data: the stock of the cap is cleared, and one cap is
    refused. *)
Lemma cleared_stock_refuses_add_sample :
  let d1 := set_products (clear_stock [2] (products shop)) shop in
  in_stock cap = Some true /\
  in_stock (set_stock (Some 0) cap) = Some false /\
  add_to_cart (add_body 2 1) empty_session d1 =
    respond empty_session d1 (JsonFailure (OnlyInStock 0)) [] [].
Proof.
  cbv zeta. split; [reflexivity|].
  refine (proj2 (cleared_stock_refuses_add [2] shop 2 cap 1 empty_session
                   eq_refl eq_refl _ _ _)).
  - by left.
  - lia.
  - lia.
Defined.

(** X14, on sample data: a subscriber is deactivated and subscribes
    again. *)
Lemma resubscribe_stays_inactive_sample :
  let d := with_subscriber "ada@example.com" shop in
  let d1 :=
    set_subscribers
      (deactivate_subscribers ["ada@example.com"] (subscribers d)) d in
  let out := subscribe delivers (Some (Some "ada@example.com"))
               empty_session d1 in
  out_response out = JsonSuccess /\
  out_db out = d1 /\
  Forall (fun r => sub_is_active r = false)
    (records_of "ada@example.com" (out_db out)).
Proof.
  cbv zeta.
  assert (He : "ada@example.com" <> EmptyString) by discriminate.
  assert (Hn : NoDup (emails (with_subscriber "ada@example.com" shop))).
  { apply NoDup_singleton. }
  assert (Hin : "ada@example.com"
                ∈ emails (with_subscriber "ada@example.com" shop)).
  { by left. }
  assert (Hsel : "ada@example.com" ∈ ["ada@example.com"]) by by left.
  destruct (resubscribe_stays_inactive delivers "ada@example.com"
              ["ada@example.com"] empty_session
              (with_subscriber "ada@example.com" shop) He Hn Hin Hsel)
    as (Hr & _ & Hd & _ & Hf).
  split_and!; assumption.
Defined.

(** ** Forms *)

(** X15, on sample data: a phone number typed with brackets, a space and
    a dash. *)
Lemma clean_phone_sample :
  clean_phone ascii_isdigit (text "(555) 123-4567") =
    inr (text "5551234567") /\
  clean_phone ascii_isdigit (text "5551234567") = inr (text "5551234567").
Proof.
  split; [reflexivity|].
  exact (proj1 (proj2 (proj2 (proj2
           (clean_phone_keeps_digits ascii_isdigit
              (text "(555) 123-4567") (text "5551234567") eq_refl))))).
Defined.

(** X16, on sample data: an address typed with white space around it. *)
Lemma cleaned_address_sample :
  clean_address ascii_isspace (text "  12 Harbour Road ") =
    inr (text "12 Harbour Road") /\
  trimmed ascii_isspace (text "12 Harbour Road") /\
  clean_address ascii_isspace (text "12 Harbour Road") =
    inr (text "12 Harbour Road").
Proof.
  split; [reflexivity|].
  destruct (proj1 (cleaned_text_is_trimmed ascii_isspace
                     (text "  12 Harbour Road ") (text "12 Harbour Road"))
              eq_refl) as (Ht & _ & _ & Hc).
  split; [exact Ht|exact Hc].
Defined.

Example clean_address_counts_without_spaces :
  clean_address ascii_isspace (text "   Flat 2      ") = inl AddressIncomplete.
Proof. reflexivity. Qed.

Example price_filter_zero_maximum :
  filter_clean (Some 5000) (Some 0) = None /\
  filter_clean (Some 5000) (Some 100) = Some MinAboveMax.
Proof. split; reflexivity. Qed.

(** ** Products and reviews *)

(** X18, on sample data: two new products of Menswear, the sku left
    blank. *)
Lemma new_products_collide_sample :
  exists p1,
    Product_save three_upper [] jacket = inr (p1, [p1]) /\
    pr_id p1 = Some 1 /\
    pr_sku p1 = Some "MEN-NEW" /\
    Product_save three_upper [p1] jeans = inl IntegrityError.
Proof.
  eexists. split; [reflexivity|]. split; [reflexivity|].
  destruct (new_products_collide_on_generated_sku three_upper [] jacket jeans
              _ _ eq_refl eq_refl eq_refl eq_refl eq_refl eq_refl)
    as (Hs & _ & Hc).
  split; [exact Hs|exact Hc].
Defined.

(** X19, on sample data: a second approved review, of five stars. *)
Lemma approved_review_sample :
  let c1 := (ProductReview_save three_upper tenths reviewed five_stars).1 in
  (pr_review_count <$> product_rows c1, pr_rating <$> product_rows c1) =
    ([2], [45]) /\
  counts_agree 7 c1.
Proof.
  cbv zeta. split; [reflexivity|].
  exact (proj1 (approved_review_is_counted three_upper tenths reviewed
                  five_stars _ eq_refl eq_refl)).
Defined.

Lemma reviewed_counts_agree : counts_agree 7 reviewed.
Proof.
  intros p [->|Hp]%elem_of_cons _; [reflexivity|].
  by apply elem_of_nil in Hp.
Qed.

(** X20, on sample data: the only approved review is disapproved in the
    admin, and the product goes on counting one. *)
Lemma disapproved_review_sample :
  let c1 := disapprove_reviews [1] reviewed in
  rv_is_approved <$> reviews c1 = [false] /\
  pr_review_count <$> product_rows c1 = [1] /\
  ~ counts_agree 7 c1.
Proof.
  cbv zeta. split; [reflexivity|]. split; [reflexivity|].
  refine (proj1 (proj2 (proj2
            (disapproved_reviews_stay_counted three_upper tenths [1] reviewed
               {| rv_id := Some 1; rv_product := 7;
                  rv_email := "ada@example.com"; rv_rating := 4;
                  rv_is_approved := true |}
               1
               {| pr_id := Some 7; pr_category := "Menswear";
                  pr_sku := Some "MEN-7"; pr_rating := 40;
                  pr_review_count := 1 |}
               reviewed_counts_agree _ eq_refl eq_refl _ _ eq_refl)))).
  - by left.
  - by left.
  - by left.
Defined.
